(** * prisma-extension-pgmq: the queue client over a transactional engine

    A shallow embedding of [src/pgmq.ts] (the Operation Layer),
    [src/client.ts] (the Bound Client Facade [PGMQTransactionClient] and the
    Convenience Client [PrismaPGMQ]) and [src/pgmq-extension.ts] (the
    [$pgmq] namespace of the Prisma extension).

    Promises are computations over an explicit world; a rejected promise is
    an outcome of its own, so [await] is the bind of a state-and-error
    monad.  The engine is reached only through the two raw-query methods of
    a handle, called as tagged templates: a call is the list of literal
    chunks of the template and the list of interpolated values. *)

From stdpp Require Import base strings list gmap.
From Stdlib Require Import ZArith.

(** ** JavaScript values *)

(** The values that flow through the client.  Numbers are kept as integers,
    with [VNaN] apart because the client tests a number for truthiness.
    [VSql] is the fragment object built by [Prisma.sql]: the literal chunks
    and the interpolated values of the template. *)
#[warnings="-register-all"]
Inductive Value : Type :=
  | VUndefined
  | VNull
  | VBool (b : bool)
  | VNumber (n : Z)
  | VNaN
  | VString (s : string)
  | VDate (epoch_ms : Z)
  | VArray (items : list Value)
  | VObject (props : list (string * Value))
  | VSql (strings : list string) (values : list Value).

(** [Record<string, unknown>] *)
Definition Task : Type := list (string * Value).

(** One row of a raw query result: an object keyed by column name. *)
Definition Row : Type := list (string * Value).

(** [row.name]; a missing property reads as [undefined]. *)
Fixpoint prop (name : string) (row : Row) : Value :=
  match row with
  | [] => VUndefined
  | (k, v) :: rest => if decide (k = name) then v else prop name rest
  end.

(** [typeof v === 'number'] *)
Definition typeof_number (v : Value) : bool :=
  match v with
  | VNumber _ | VNaN => true
  | _ => false
  end.

(** The truthiness of a value, as a condition [v ? a : b] takes it. *)
Definition truthy (v : Value) : bool :=
  match v with
  | VUndefined | VNull | VNaN => false
  | VBool b => b
  | VNumber n => negb (n =? 0)%Z
  | VString s => negb (String.eqb s "")
  | VDate _ | VArray _ | VObject _ | VSql _ _ => true
  end.

(** The optional parameter [delay?: number | Date]. *)
Inductive Delay : Type :=
  | DelayOmitted
  | DelayNumber (seconds : Z)
  | DelayNaN
  | DelayDate (epoch_ms : Z).

Definition delay_value (delay : Delay) : Value :=
  match delay with
  | DelayOmitted => VUndefined
  | DelayNumber n => VNumber n
  | DelayNaN => VNaN
  | DelayDate t => VDate t
  end.

(** A thrown value: the class of the error object and its message. *)
Record JsError : Type := MkError {
  error_class : string;
  error_message : string
}.

(** [new Error(message)] *)
Definition Error (message : string) : JsError :=
  {| error_class := "Error"; error_message := message |}.

(** ** Promises *)

Inductive Outcome (A : Type) : Type :=
  | Fulfilled (a : A)
  | Rejected (e : JsError).
Arguments Fulfilled {A} a.
Arguments Rejected {A} e.

Definition Promise (W A : Type) : Type := W -> Outcome A * W.

Definition resolve {W A} (a : A) : Promise W A := fun w => (Fulfilled a, w).

Definition throw {W A} (e : JsError) : Promise W A := fun w => (Rejected e, w).

(** [const x = await p; k x] *)
Definition await {W A B} (p : Promise W A) (k : A -> Promise W B) : Promise W B :=
  fun w =>
    match p w with
    | (Fulfilled a, w') => k a w'
    | (Rejected e, w') => (Rejected e, w')
    end.

Declare Scope promise_scope.
Delimit Scope promise_scope with promise.
Notation "x <- p ;; k" := (await p (fun x => k))
  (at level 100, p at next level, right associativity) : promise_scope.
Notation "p ;;; k" := (await p (fun _ => k))
  (at level 100, right associativity) : promise_scope.

(** [Prisma.TransactionClient], as far as the client uses it: the two
    tagged-template methods. *)
Record TransactionClient (W : Type) : Type := {
  queryRaw : list string -> list Value -> Promise W (list Row);
  executeRaw : list string -> list Value -> Promise W Z
}.
Arguments queryRaw {W} _ _ _.
Arguments executeRaw {W} _ _ _.

(** What the constructor of a fragment does with the chunks and values of
    its template, [current] being the chunk under construction: a value that
    is itself a fragment is spliced in, its first chunk joined to the
    current one, its values and inner chunks taken over in place, and the
    next chunk of the template joined to its last chunk; any other value is
    kept and closes the current chunk. *)
Fixpoint splice (current : string) (rawStrings : list string) (rawValues : list Value)
    : list string * list Value :=
  match rawValues, rawStrings with
  | child :: rawValues', rawString :: rawStrings' =>
      match child with
      | VSql childStrings childValues =>
          let chain := (current +:+ hd "" childStrings) :: tl childStrings in
          let '(strings, values) :=
            splice (List.last chain "" +:+ rawString) rawStrings' rawValues' in
          (removelast chain ++ strings, childValues ++ values)
      | _ =>
          let '(strings, values) := splice rawString rawStrings' rawValues' in
          (current :: strings, child :: values)
      end
  | _, _ => ([current], [])
  end.

(** [Prisma.sql`...`]: the fragment of a tagged template, with the fragments
    among its values spliced in, so that a fragment never holds another. *)
Definition sql (strings : list string) (values : list Value) : Value :=
  match strings with
  | [] => VSql [] []
  | first :: rest => let '(strings', values') := splice first rest values in
                     VSql strings' values'
  end.

(** ** The Operation Layer, [src/pgmq.ts] *)

Module pgmq.
Section Operations.
Context {W : Type}.
Local Open Scope promise_scope.
Local Open Scope Z_scope.

Definition send (tx : TransactionClient W) (queueName : string) (msg : Task)
    (delay : Delay) : Promise W Value :=
  let delayRepr :=
    if typeof_number (delay_value delay)
    then sql [""; "::integer"] [delay_value delay]
    else sql [""; ""] [delay_value delay] in
  let delaySql :=
    if truthy (delay_value delay) then sql [", "; ""] [delayRepr] else sql [""] [] in
  result <- queryRaw tx ["SELECT pgmq.send("; ", "; ""; ")"]
                        [VString queueName; VObject msg; delaySql] ;;
  match result !! 0%nat with
  | None => throw (Error "No result returned from pgmq.send")
  | Some firstResult => resolve (prop "send" firstResult)
  end.

Definition sendBatch (tx : TransactionClient W) (queueName : string)
    (msgs : list Task) (delay : Delay) : Promise W (list Value) :=
  let delayRepr :=
    if typeof_number (delay_value delay)
    then sql [""; "::integer"] [delay_value delay]
    else sql [""; ""] [delay_value delay] in
  let delaySql :=
    if truthy (delay_value delay) then sql [", "; ""] [delayRepr] else sql [""] [] in
  result <- queryRaw tx ["SELECT pgmq.send_batch("; ", "; ""; ")"]
                        [VString queueName; VArray (VObject <$> msgs); delaySql] ;;
  resolve (prop "send_batch" <$> result).

Definition read (tx : TransactionClient W) (queueName : string) (vt : Z)
    (qty : option Z) (conditional : option Task) : Promise W (list Row) :=
  let qty := default 1 qty in
  let conditional := default [] conditional in
  queryRaw tx ["SELECT * FROM pgmq.read("; ", "; "::integer, "; "::integer, "; ")"]
              [VString queueName; VNumber vt; VNumber qty; VObject conditional].

Definition readWithPoll (tx : TransactionClient W) (queueName : string) (vt : Z)
    (qty maxPollSeconds pollIntervalMs : option Z) (conditional : option Task)
    : Promise W (list Row) :=
  let qty := default 1 qty in
  let maxPollSeconds := default 5 maxPollSeconds in
  let pollIntervalMs := default 100 pollIntervalMs in
  let conditional := default [] conditional in
  queryRaw tx ["SELECT * FROM pgmq.read_with_poll("; ", "; "::integer, "; "::integer, ";
               "::integer, "; "::integer, "; ")"]
              [VString queueName; VNumber vt; VNumber qty; VNumber maxPollSeconds;
               VNumber pollIntervalMs; VObject conditional].

Definition pop (tx : TransactionClient W) (queueName : string) : Promise W (list Row) :=
  queryRaw tx ["SELECT * FROM pgmq.pop("; ")"] [VString queueName].

Definition deleteMessage (tx : TransactionClient W) (queueName : string) (msgId : Z)
    : Promise W Value :=
  result <- queryRaw tx ["SELECT pgmq.delete("; ", "; "::integer)"]
                        [VString queueName; VNumber msgId] ;;
  match result !! 0%nat with
  | None => throw (Error "No result returned from pgmq.delete")
  | Some firstResult => resolve (prop "delete" firstResult)
  end.

Definition deleteBatch (tx : TransactionClient W) (queueName : string)
    (msgIds : list Z) : Promise W (list Value) :=
  result <- queryRaw tx ["SELECT pgmq.delete("; ", "; "::integer[])"]
                        [VString queueName; VArray (VNumber <$> msgIds)] ;;
  resolve (prop "delete" <$> result).

Definition purgeQueue (tx : TransactionClient W) (queueName : string) : Promise W Value :=
  result <- queryRaw tx ["SELECT pgmq.purge_queue("; ")"] [VString queueName] ;;
  match result !! 0%nat with
  | None => throw (Error "No result returned from pgmq.purge_queue")
  | Some firstResult => resolve (prop "purge_queue" firstResult)
  end.

Definition archive (tx : TransactionClient W) (queueName : string) (msgId : Z)
    : Promise W Value :=
  result <- queryRaw tx ["SELECT pgmq.archive("; ", "; "::integer)"]
                        [VString queueName; VNumber msgId] ;;
  match result !! 0%nat with
  | None => throw (Error "No result returned from pgmq.archive")
  | Some firstResult => resolve (prop "archive" firstResult)
  end.

Definition archiveBatch (tx : TransactionClient W) (queueName : string)
    (msgIds : list Z) : Promise W (list Value) :=
  result <- queryRaw tx ["SELECT pgmq.archive("; ", "; "::integer[])"]
                        [VString queueName; VArray (VNumber <$> msgIds)] ;;
  resolve (prop "archive" <$> result).

Definition createQueue (tx : TransactionClient W) (queueName : string) : Promise W unit :=
  executeRaw tx ["SELECT pgmq.create("; ")"] [VString queueName] ;;;
  resolve tt.

Definition createPartitionedQueue (tx : TransactionClient W) (queueName : string)
    (partitionInterval retentionInterval : option string) : Promise W unit :=
  let partitionInterval := default "10000" partitionInterval in
  let retentionInterval := default "100000" retentionInterval in
  executeRaw tx ["SELECT pgmq.create_partitioned("; ", "; ", "; ")"]
                [VString queueName; VString partitionInterval; VString retentionInterval] ;;;
  resolve tt.

Definition createUnloggedQueue (tx : TransactionClient W) (queueName : string)
    : Promise W unit :=
  executeRaw tx ["SELECT pgmq.create_unlogged("; ")"] [VString queueName] ;;;
  resolve tt.

Definition detachArchive (tx : TransactionClient W) (queueName : string) : Promise W unit :=
  executeRaw tx ["SELECT pgmq.detach_archive("; ")"] [VString queueName] ;;;
  resolve tt.

Definition dropQueue (tx : TransactionClient W) (queueName : string) : Promise W Value :=
  result <- queryRaw tx ["SELECT pgmq.drop_queue("; ")"] [VString queueName] ;;
  match result !! 0%nat with
  | None => throw (Error "No result returned from pgmq.drop_queue")
  | Some firstResult => resolve (prop "drop_queue" firstResult)
  end.

Definition setVt (tx : TransactionClient W) (queueName : string) (msgId vtOffset : Z)
    : Promise W Row :=
  result <- queryRaw tx ["SELECT * FROM pgmq.set_vt("; ", "; "::integer, "; "::integer)"]
                        [VString queueName; VNumber msgId; VNumber vtOffset] ;;
  match result !! 0%nat with
  | None => throw (Error "No result returned from pgmq.set_vt")
  | Some firstResult => resolve firstResult
  end.

Definition listQueues (tx : TransactionClient W) : Promise W (list Row) :=
  result <- queryRaw tx ["SELECT * FROM pgmq.list_queues()"] [] ;;
  resolve result.

Definition metrics (tx : TransactionClient W) (queueName : string) : Promise W Row :=
  result <- queryRaw tx ["SELECT * FROM pgmq.metrics("; ")"] [VString queueName] ;;
  match result !! 0%nat with
  | None => throw (Error "No result returned from pgmq.metrics")
  | Some firstResult => resolve firstResult
  end.

Definition metricsAll (tx : TransactionClient W) : Promise W (list Row) :=
  result <- queryRaw tx ["SELECT * FROM pgmq.metrics_all()"] [] ;;
  resolve result.

End Operations.
End pgmq.

(** ** The Bound Client Facade, [src/client.ts] *)

Module PGMQTransactionClient.
Section Facade.
Context {W : Type}.
Local Open Scope Z_scope.

(** [constructor(private tx: Prisma.TransactionClient)] *)
Record t : Type := new { tx : TransactionClient W }.

Definition send (this : t) (queueName : string) (msg : Task) (delay : Delay) :=
  pgmq.send (tx this) queueName msg delay.

Definition sendBatch (this : t) (queueName : string) (msgs : list Task) (delay : Delay) :=
  pgmq.sendBatch (tx this) queueName msgs delay.

Definition read (this : t) (queueName : string) (vt : Z) (qty : option Z)
    (conditional : option Task) :=
  let qty := default 1 qty in
  let conditional := default [] conditional in
  pgmq.read (tx this) queueName vt (Some qty) (Some conditional).

Definition readWithPoll (this : t) (queueName : string) (vt : Z)
    (qty maxPollSeconds pollIntervalMs : option Z) (conditional : option Task) :=
  let qty := default 1 qty in
  let maxPollSeconds := default 5 maxPollSeconds in
  let pollIntervalMs := default 100 pollIntervalMs in
  let conditional := default [] conditional in
  pgmq.readWithPoll (tx this) queueName vt (Some qty) (Some maxPollSeconds)
                    (Some pollIntervalMs) (Some conditional).

Definition pop (this : t) (queueName : string) := pgmq.pop (tx this) queueName.

Definition deleteMessage (this : t) (queueName : string) (msgId : Z) :=
  pgmq.deleteMessage (tx this) queueName msgId.

Definition deleteBatch (this : t) (queueName : string) (msgIds : list Z) :=
  pgmq.deleteBatch (tx this) queueName msgIds.

Definition purgeQueue (this : t) (queueName : string) :=
  pgmq.purgeQueue (tx this) queueName.

Definition archive (this : t) (queueName : string) (msgId : Z) :=
  pgmq.archive (tx this) queueName msgId.

Definition archiveBatch (this : t) (queueName : string) (msgIds : list Z) :=
  pgmq.archiveBatch (tx this) queueName msgIds.

Definition createQueue (this : t) (queueName : string) :=
  pgmq.createQueue (tx this) queueName.

Definition createPartitionedQueue (this : t) (queueName : string)
    (partitionInterval retentionInterval : option string) :=
  let partitionInterval := default "10000" partitionInterval in
  let retentionInterval := default "100000" retentionInterval in
  pgmq.createPartitionedQueue (tx this) queueName (Some partitionInterval)
                              (Some retentionInterval).

Definition createUnloggedQueue (this : t) (queueName : string) :=
  pgmq.createUnloggedQueue (tx this) queueName.

Definition detachArchive (this : t) (queueName : string) :=
  pgmq.detachArchive (tx this) queueName.

Definition dropQueue (this : t) (queueName : string) :=
  pgmq.dropQueue (tx this) queueName.

Definition setVt (this : t) (queueName : string) (msgId vtOffset : Z) :=
  pgmq.setVt (tx this) queueName msgId vtOffset.

Definition listQueues (this : t) := pgmq.listQueues (tx this).

Definition metrics (this : t) (queueName : string) := pgmq.metrics (tx this) queueName.

Definition metricsAll (this : t) := pgmq.metricsAll (tx this).

End Facade.
Arguments t W : clear implicits.
End PGMQTransactionClient.

(** [PrismaClient], as far as the client uses it: the raw-query methods and
    [$transaction], which runs a block on a transaction handle. *)
Record PrismaClient (W : Type) : Type := {
  prisma_queryRaw : list string -> list Value -> Promise W (list Row);
  prisma_executeRaw : list string -> list Value -> Promise W Z;
  prisma_transaction : forall A : Type, (TransactionClient W -> Promise W A) -> Promise W A
}.
Arguments prisma_queryRaw {W} _ _ _.
Arguments prisma_executeRaw {W} _ _ _.
Arguments prisma_transaction {W} _ {A} _.

(** ** The Convenience Client, [src/client.ts] *)

Module PrismaPGMQ.
Section Client.
Context {W : Type}.
Local Open Scope Z_scope.

(** [constructor(private prisma: PrismaClient)] *)
Record t : Type := new { prisma : PrismaClient W }.

Definition transaction {A} (this : t)
    (callback : PGMQTransactionClient.t W -> Promise W A) : Promise W A :=
  prisma_transaction (prisma this) (fun tx =>
    let pgmqClient := PGMQTransactionClient.new tx in
    callback pgmqClient).

Definition send (this : t) (queueName : string) (msg : Task) (delay : Delay) :=
  transaction this (fun tx => PGMQTransactionClient.send tx queueName msg delay).

Definition sendBatch (this : t) (queueName : string) (msgs : list Task) (delay : Delay) :=
  transaction this (fun tx => PGMQTransactionClient.sendBatch tx queueName msgs delay).

Definition read (this : t) (queueName : string) (vt : Z) (qty : option Z)
    (conditional : option Task) :=
  let qty := default 1 qty in
  let conditional := default [] conditional in
  transaction this (fun tx =>
    PGMQTransactionClient.read tx queueName vt (Some qty) (Some conditional)).

Definition readWithPoll (this : t) (queueName : string) (vt : Z)
    (qty maxPollSeconds pollIntervalMs : option Z) (conditional : option Task) :=
  let qty := default 1 qty in
  let maxPollSeconds := default 5 maxPollSeconds in
  let pollIntervalMs := default 100 pollIntervalMs in
  let conditional := default [] conditional in
  transaction this (fun tx =>
    PGMQTransactionClient.readWithPoll tx queueName vt (Some qty) (Some maxPollSeconds)
                                       (Some pollIntervalMs) (Some conditional)).

Definition pop (this : t) (queueName : string) :=
  transaction this (fun tx => PGMQTransactionClient.pop tx queueName).

Definition deleteMessage (this : t) (queueName : string) (msgId : Z) :=
  transaction this (fun tx => PGMQTransactionClient.deleteMessage tx queueName msgId).

Definition deleteBatch (this : t) (queueName : string) (msgIds : list Z) :=
  transaction this (fun tx => PGMQTransactionClient.deleteBatch tx queueName msgIds).

Definition purgeQueue (this : t) (queueName : string) :=
  transaction this (fun tx => PGMQTransactionClient.purgeQueue tx queueName).

Definition archive (this : t) (queueName : string) (msgId : Z) :=
  transaction this (fun tx => PGMQTransactionClient.archive tx queueName msgId).

Definition archiveBatch (this : t) (queueName : string) (msgIds : list Z) :=
  transaction this (fun tx => PGMQTransactionClient.archiveBatch tx queueName msgIds).

Definition createQueue (this : t) (queueName : string) :=
  transaction this (fun tx => PGMQTransactionClient.createQueue tx queueName).

Definition createPartitionedQueue (this : t) (queueName : string)
    (partitionInterval retentionInterval : option string) :=
  let partitionInterval := default "10000" partitionInterval in
  let retentionInterval := default "100000" retentionInterval in
  transaction this (fun tx =>
    PGMQTransactionClient.createPartitionedQueue tx queueName (Some partitionInterval)
                                                 (Some retentionInterval)).

Definition createUnloggedQueue (this : t) (queueName : string) :=
  transaction this (fun tx => PGMQTransactionClient.createUnloggedQueue tx queueName).

Definition detachArchive (this : t) (queueName : string) :=
  transaction this (fun tx => PGMQTransactionClient.detachArchive tx queueName).

Definition dropQueue (this : t) (queueName : string) :=
  transaction this (fun tx => PGMQTransactionClient.dropQueue tx queueName).

Definition setVt (this : t) (queueName : string) (msgId vtOffset : Z) :=
  transaction this (fun tx => PGMQTransactionClient.setVt tx queueName msgId vtOffset).

Definition listQueues (this : t) :=
  transaction this (fun tx => PGMQTransactionClient.listQueues tx).

Definition metrics (this : t) (queueName : string) :=
  transaction this (fun tx => PGMQTransactionClient.metrics tx queueName).

Definition metricsAll (this : t) :=
  transaction this (fun tx => PGMQTransactionClient.metricsAll tx).

End Client.
Arguments t W : clear implicits.
End PrismaPGMQ.

(** ** The Prisma extension, [src/pgmq-extension.ts] *)

(** [Prisma.getExtensionContext(this)]: at run time the receiver itself. *)
Definition getExtensionContext {T : Type} (that : T) : T := that.

(** A JavaScript object as a method of the namespace sees its receiver:
    through the properties [$queryRaw] and [$executeRaw], which the object
    may or may not have. *)
Record JsObject (W : Type) : Type := {
  get_queryRaw : option (list string -> list Value -> Promise W (list Row));
  get_executeRaw : option (list string -> list Value -> Promise W Z)
}.
Arguments get_queryRaw {W} _.
Arguments get_executeRaw {W} _.

(** The error of calling a property that is not a function. *)
Definition TypeError (message : string) : JsError :=
  {| error_class := "TypeError"; error_message := message |}.

(** [prisma as any], passed where the Operation Layer expects a transaction
    handle [tx]: the same object unchanged.  Calling [tx.$queryRaw] or
    [tx.$executeRaw] on an object without that property throws. *)
Definition as_any {W} (prisma : JsObject W) : TransactionClient W :=
  {| queryRaw :=
       match get_queryRaw prisma with
       | Some f => f
       | None => fun _ _ => throw (TypeError "tx.$queryRaw is not a function")
       end;
     executeRaw :=
       match get_executeRaw prisma with
       | Some f => f
       | None => fun _ _ => throw (TypeError "tx.$executeRaw is not a function")
       end |}.

(** A Prisma client as such an object: it has both raw methods. *)
Definition client_object {W} (prisma : PrismaClient W) : JsObject W :=
  {| get_queryRaw := Some (prisma_queryRaw prisma);
     get_executeRaw := Some (prisma_executeRaw prisma) |}.

(** The object [$pgmq] of the extended client: its properties are the
    nineteen methods below and nothing else.  In a call
    [prisma.$pgmq.send(...)] it is the receiver [this] of the method. *)
Definition namespace_object {W} : JsObject W :=
  {| get_queryRaw := None; get_executeRaw := None |}.

(** The methods of the [$pgmq] namespace, each with its receiver [this]. *)
Module pgmqExtension.
Section Extension.
Context {W : Type}.
Local Open Scope Z_scope.

Definition send (this : JsObject W) (queueName : string) (msg : Task) (delay : Delay) :=
  let prisma := getExtensionContext this in
  pgmq.send (as_any prisma) queueName msg delay.

Definition sendBatch (this : JsObject W) (queueName : string) (msgs : list Task)
    (delay : Delay) :=
  let prisma := getExtensionContext this in
  pgmq.sendBatch (as_any prisma) queueName msgs delay.

Definition read (this : JsObject W) (queueName : string) (vt : Z) (qty : option Z)
    (conditional : option Task) :=
  let qty := default 1 qty in
  let conditional := default [] conditional in
  let prisma := getExtensionContext this in
  pgmq.read (as_any prisma) queueName vt (Some qty) (Some conditional).

Definition readWithPoll (this : JsObject W) (queueName : string) (vt : Z)
    (qty maxPollSeconds pollIntervalMs : option Z) (conditional : option Task) :=
  let qty := default 1 qty in
  let maxPollSeconds := default 5 maxPollSeconds in
  let pollIntervalMs := default 100 pollIntervalMs in
  let conditional := default [] conditional in
  let prisma := getExtensionContext this in
  pgmq.readWithPoll (as_any prisma) queueName vt (Some qty) (Some maxPollSeconds)
                    (Some pollIntervalMs) (Some conditional).

Definition pop (this : JsObject W) (queueName : string) :=
  let prisma := getExtensionContext this in
  pgmq.pop (as_any prisma) queueName.

Definition deleteMessage (this : JsObject W) (queueName : string) (msgId : Z) :=
  let prisma := getExtensionContext this in
  pgmq.deleteMessage (as_any prisma) queueName msgId.

Definition deleteBatch (this : JsObject W) (queueName : string) (msgIds : list Z) :=
  let prisma := getExtensionContext this in
  pgmq.deleteBatch (as_any prisma) queueName msgIds.

Definition purgeQueue (this : JsObject W) (queueName : string) :=
  let prisma := getExtensionContext this in
  pgmq.purgeQueue (as_any prisma) queueName.

Definition archive (this : JsObject W) (queueName : string) (msgId : Z) :=
  let prisma := getExtensionContext this in
  pgmq.archive (as_any prisma) queueName msgId.

Definition archiveBatch (this : JsObject W) (queueName : string) (msgIds : list Z) :=
  let prisma := getExtensionContext this in
  pgmq.archiveBatch (as_any prisma) queueName msgIds.

Definition createQueue (this : JsObject W) (queueName : string) :=
  let prisma := getExtensionContext this in
  pgmq.createQueue (as_any prisma) queueName.

Definition createPartitionedQueue (this : JsObject W) (queueName : string)
    (partitionInterval retentionInterval : option string) :=
  let partitionInterval := default "10000" partitionInterval in
  let retentionInterval := default "100000" retentionInterval in
  let prisma := getExtensionContext this in
  pgmq.createPartitionedQueue (as_any prisma) queueName (Some partitionInterval)
                              (Some retentionInterval).

Definition createUnloggedQueue (this : JsObject W) (queueName : string) :=
  let prisma := getExtensionContext this in
  pgmq.createUnloggedQueue (as_any prisma) queueName.

Definition detachArchive (this : JsObject W) (queueName : string) :=
  let prisma := getExtensionContext this in
  pgmq.detachArchive (as_any prisma) queueName.

Definition dropQueue (this : JsObject W) (queueName : string) :=
  let prisma := getExtensionContext this in
  pgmq.dropQueue (as_any prisma) queueName.

Definition setVt (this : JsObject W) (queueName : string) (msgId vtOffset : Z) :=
  let prisma := getExtensionContext this in
  pgmq.setVt (as_any prisma) queueName msgId vtOffset.

Definition listQueues (this : JsObject W) :=
  let prisma := getExtensionContext this in
  pgmq.listQueues (as_any prisma).

Definition metrics (this : JsObject W) (queueName : string) :=
  let prisma := getExtensionContext this in
  pgmq.metrics (as_any prisma) queueName.

Definition metricsAll (this : JsObject W) :=
  let prisma := getExtensionContext this in
  pgmq.metricsAll (as_any prisma).

End Extension.
End pgmqExtension.

(** ** Method calls as data

    One constructor per method of the shared surface, carrying the argument
    tuple the caller wrote (an optional parameter the caller left out is
    [None]); the index is the type the method's promise resolves to.  The
    four dispatchers send a call to the method of that name in each layer. *)

Inductive Op : Type -> Type :=
  | OpSend (queueName : string) (msg : Task) (delay : Delay) : Op Value
  | OpSendBatch (queueName : string) (msgs : list Task) (delay : Delay) : Op (list Value)
  | OpRead (queueName : string) (vt : Z) (qty : option Z) (conditional : option Task)
      : Op (list Row)
  | OpReadWithPoll (queueName : string) (vt : Z) (qty maxPollSeconds pollIntervalMs : option Z)
      (conditional : option Task) : Op (list Row)
  | OpPop (queueName : string) : Op (list Row)
  | OpDeleteMessage (queueName : string) (msgId : Z) : Op Value
  | OpDeleteBatch (queueName : string) (msgIds : list Z) : Op (list Value)
  | OpPurgeQueue (queueName : string) : Op Value
  | OpArchive (queueName : string) (msgId : Z) : Op Value
  | OpArchiveBatch (queueName : string) (msgIds : list Z) : Op (list Value)
  | OpCreateQueue (queueName : string) : Op unit
  | OpCreatePartitionedQueue (queueName : string)
      (partitionInterval retentionInterval : option string) : Op unit
  | OpCreateUnloggedQueue (queueName : string) : Op unit
  | OpDetachArchive (queueName : string) : Op unit
  | OpDropQueue (queueName : string) : Op Value
  | OpSetVt (queueName : string) (msgId vtOffset : Z) : Op Row
  | OpListQueues : Op (list Row)
  | OpMetrics (queueName : string) : Op Row
  | OpMetricsAll : Op (list Row).

Section Dispatch.
Context {W : Type}.

Definition operation {A} (tx : TransactionClient W) (o : Op A) : Promise W A :=
  match o in Op A return Promise W A with
  | OpSend q m d => pgmq.send tx q m d
  | OpSendBatch q ms d => pgmq.sendBatch tx q ms d
  | OpRead q vt qty c => pgmq.read tx q vt qty c
  | OpReadWithPoll q vt qty mp pi c => pgmq.readWithPoll tx q vt qty mp pi c
  | OpPop q => pgmq.pop tx q
  | OpDeleteMessage q i => pgmq.deleteMessage tx q i
  | OpDeleteBatch q ids => pgmq.deleteBatch tx q ids
  | OpPurgeQueue q => pgmq.purgeQueue tx q
  | OpArchive q i => pgmq.archive tx q i
  | OpArchiveBatch q ids => pgmq.archiveBatch tx q ids
  | OpCreateQueue q => pgmq.createQueue tx q
  | OpCreatePartitionedQueue q p r => pgmq.createPartitionedQueue tx q p r
  | OpCreateUnloggedQueue q => pgmq.createUnloggedQueue tx q
  | OpDetachArchive q => pgmq.detachArchive tx q
  | OpDropQueue q => pgmq.dropQueue tx q
  | OpSetVt q i off => pgmq.setVt tx q i off
  | OpListQueues => pgmq.listQueues tx
  | OpMetrics q => pgmq.metrics tx q
  | OpMetricsAll => pgmq.metricsAll tx
  end.

Definition facade_method {A} (this : PGMQTransactionClient.t W) (o : Op A) : Promise W A :=
  match o in Op A return Promise W A with
  | OpSend q m d => PGMQTransactionClient.send this q m d
  | OpSendBatch q ms d => PGMQTransactionClient.sendBatch this q ms d
  | OpRead q vt qty c => PGMQTransactionClient.read this q vt qty c
  | OpReadWithPoll q vt qty mp pi c => PGMQTransactionClient.readWithPoll this q vt qty mp pi c
  | OpPop q => PGMQTransactionClient.pop this q
  | OpDeleteMessage q i => PGMQTransactionClient.deleteMessage this q i
  | OpDeleteBatch q ids => PGMQTransactionClient.deleteBatch this q ids
  | OpPurgeQueue q => PGMQTransactionClient.purgeQueue this q
  | OpArchive q i => PGMQTransactionClient.archive this q i
  | OpArchiveBatch q ids => PGMQTransactionClient.archiveBatch this q ids
  | OpCreateQueue q => PGMQTransactionClient.createQueue this q
  | OpCreatePartitionedQueue q p r => PGMQTransactionClient.createPartitionedQueue this q p r
  | OpCreateUnloggedQueue q => PGMQTransactionClient.createUnloggedQueue this q
  | OpDetachArchive q => PGMQTransactionClient.detachArchive this q
  | OpDropQueue q => PGMQTransactionClient.dropQueue this q
  | OpSetVt q i off => PGMQTransactionClient.setVt this q i off
  | OpListQueues => PGMQTransactionClient.listQueues this
  | OpMetrics q => PGMQTransactionClient.metrics this q
  | OpMetricsAll => PGMQTransactionClient.metricsAll this
  end.

Definition client_method {A} (this : PrismaPGMQ.t W) (o : Op A) : Promise W A :=
  match o in Op A return Promise W A with
  | OpSend q m d => PrismaPGMQ.send this q m d
  | OpSendBatch q ms d => PrismaPGMQ.sendBatch this q ms d
  | OpRead q vt qty c => PrismaPGMQ.read this q vt qty c
  | OpReadWithPoll q vt qty mp pi c => PrismaPGMQ.readWithPoll this q vt qty mp pi c
  | OpPop q => PrismaPGMQ.pop this q
  | OpDeleteMessage q i => PrismaPGMQ.deleteMessage this q i
  | OpDeleteBatch q ids => PrismaPGMQ.deleteBatch this q ids
  | OpPurgeQueue q => PrismaPGMQ.purgeQueue this q
  | OpArchive q i => PrismaPGMQ.archive this q i
  | OpArchiveBatch q ids => PrismaPGMQ.archiveBatch this q ids
  | OpCreateQueue q => PrismaPGMQ.createQueue this q
  | OpCreatePartitionedQueue q p r => PrismaPGMQ.createPartitionedQueue this q p r
  | OpCreateUnloggedQueue q => PrismaPGMQ.createUnloggedQueue this q
  | OpDetachArchive q => PrismaPGMQ.detachArchive this q
  | OpDropQueue q => PrismaPGMQ.dropQueue this q
  | OpSetVt q i off => PrismaPGMQ.setVt this q i off
  | OpListQueues => PrismaPGMQ.listQueues this
  | OpMetrics q => PrismaPGMQ.metrics this q
  | OpMetricsAll => PrismaPGMQ.metricsAll this
  end.

Definition extension_method {A} (this : JsObject W) (o : Op A) : Promise W A :=
  match o in Op A return Promise W A with
  | OpSend q m d => pgmqExtension.send this q m d
  | OpSendBatch q ms d => pgmqExtension.sendBatch this q ms d
  | OpRead q vt qty c => pgmqExtension.read this q vt qty c
  | OpReadWithPoll q vt qty mp pi c => pgmqExtension.readWithPoll this q vt qty mp pi c
  | OpPop q => pgmqExtension.pop this q
  | OpDeleteMessage q i => pgmqExtension.deleteMessage this q i
  | OpDeleteBatch q ids => pgmqExtension.deleteBatch this q ids
  | OpPurgeQueue q => pgmqExtension.purgeQueue this q
  | OpArchive q i => pgmqExtension.archive this q i
  | OpArchiveBatch q ids => pgmqExtension.archiveBatch this q ids
  | OpCreateQueue q => pgmqExtension.createQueue this q
  | OpCreatePartitionedQueue q p r => pgmqExtension.createPartitionedQueue this q p r
  | OpCreateUnloggedQueue q => pgmqExtension.createUnloggedQueue this q
  | OpDetachArchive q => pgmqExtension.detachArchive this q
  | OpDropQueue q => pgmqExtension.dropQueue this q
  | OpSetVt q i off => pgmqExtension.setVt this q i off
  | OpListQueues => pgmqExtension.listQueues this
  | OpMetrics q => pgmqExtension.metrics this q
  | OpMetricsAll => pgmqExtension.metricsAll this
  end.

End Dispatch.

(** ** An engine behind the handles

    The external engine is any pair of functions from a raw call and a
    database state to an outcome and a new state.  The world the promises
    run in is the database together with the trace of what crossed the
    boundary, so that round trips and scopes can be counted. *)

Inductive Event : Type :=
  | EvBegin
  | EvCommit
  | EvRollback
  | EvQueryRaw (strings : list string) (values : list Value)
  | EvExecuteRaw (strings : list string) (values : list Value).

Record World (DB : Type) : Type := MkWorld {
  db : DB;
  trace : list Event
}.
Arguments MkWorld {DB} _ _.
Arguments db {DB} _.
Arguments trace {DB} _.

Record Engine (DB : Type) : Type := {
  engine_query : list string -> list Value -> DB -> Outcome (list Row) * DB;
  engine_execute : list string -> list Value -> DB -> Outcome Z * DB
}.
Arguments engine_query {DB} _ _ _ _.
Arguments engine_execute {DB} _ _ _ _.

Definition is_engine_call (ev : Event) : bool :=
  match ev with
  | EvQueryRaw _ _ | EvExecuteRaw _ _ => true
  | _ => false
  end.

Definition is_begin (ev : Event) : bool :=
  match ev with
  | EvBegin => true
  | _ => false
  end.

Definition round_trips (t : list Event) : nat :=
  length (filter (fun ev => is_engine_call ev = true) t).

Definition scopes_opened (t : list Event) : nat :=
  length (filter (fun ev => is_begin ev = true) t).

Section EngineHandles.
Context {DB : Type} (E : Engine DB).

Definition record (ev : Event) (w : World DB) : World DB :=
  MkWorld (db w) (trace w ++ [ev]).

(** A handle whose raw-query methods make one round trip to [E] each. *)
Definition engine_handle : TransactionClient (World DB) :=
  {| queryRaw := fun strings values w =>
       let '(r, d) := engine_query E strings values (db w) in
       (r, MkWorld d (trace w ++ [EvQueryRaw strings values]));
     executeRaw := fun strings values w =>
       let '(r, d) := engine_execute E strings values (db w) in
       (r, MkWorld d (trace w ++ [EvExecuteRaw strings values])) |}.

(** Modelled from the spec: the [$transaction] of a real Prisma client, a
    library outside the repository.  (The only [$transaction] written in the
    repository is the test double of [setupMockPrismaWithCapture], embedded
    as [mock_transaction] below: it runs the block on the mock handle and has
    no unit of work.)  Following the Transaction Scope Manager of the spec,
    the real one opens one unit of work, hands the block a handle bound to
    it, commits when the block's promise is fulfilled, and when it is
    rejected restores the database as it was when the scope opened and
    rejects with the same value.  The events [EvBegin], [EvCommit] and
    [EvRollback] are this model's record of the unit of work; no code of the
    repository emits them. *)
Definition run_transaction {A} (block : TransactionClient (World DB) -> Promise (World DB) A)
    : Promise (World DB) A :=
  fun w =>
    match block engine_handle (record EvBegin w) with
    | (Fulfilled a, w') => (Fulfilled a, record EvCommit w')
    | (Rejected e, w') => (Rejected e, MkWorld (db w) (trace w' ++ [EvRollback]))
    end.

Definition engine_client : PrismaClient (World DB) :=
  {| prisma_queryRaw := queryRaw engine_handle;
     prisma_executeRaw := executeRaw engine_handle;
     prisma_transaction := @run_transaction |}.

End EngineHandles.

(** ** A reference engine

    The queue engine is an external collaborator and none of it is in the
    repository.  This module has the part of it that the properties of
    deletion and delay rest on, following the spec's data model (a queue is
    a named channel of messages; a message has an identifier assigned by
    the engine, increasing within its queue, a read count, an enqueue
    timestamp, a visibility deadline and a payload; without a delay the
    deadline is the enqueue timestamp) and its table of primitives. *)

Module Reference.

(** Modelled from the spec: a message record is an id, a read count, an
    enqueue timestamp, a visibility deadline and a payload. *)
Record Message : Type := {
  msg_id : Z;
  read_ct : Z;
  enqueued_at : Z;
  vt : Z;
  message : Task
}.

(** Modelled from the spec: a queue is a channel of messages; identifiers
    are assigned by the engine and increase within the queue. *)
Record Queue : Type := {
  next_id : Z;
  messages : list Message
}.

(** Modelled from the spec: the engine's state is its named queues and the
    current timestamp, in milliseconds like a JavaScript date. *)
Record Store : Type := {
  now : Z;
  queues : gmap string Queue
}.

(** Modelled from the spec: an EngineError is the engine rejecting a call;
    it reaches the client as the error object of the database driver. *)
Definition EngineError (message : string) : JsError :=
  {| error_class := "PrismaClientKnownRequestError"; error_message := message |}.

(** Modelled from the spec: the initial visibility deadline of a message.
    Without a delay it is the enqueue timestamp; a delay is a number of
    seconds from now or an absolute instant.  The argument is the delay
    fragment of the [send] call. *)
Definition deadline (clock : Z) (delaySql : Value) : option Z :=
  match delaySql with
  | VSql [_] [] => Some clock
  | VSql [_; _] [VNumber seconds] => Some (clock + 1000 * seconds)%Z
  | VSql [_; _] [VDate instant] => Some instant
  | _ => None
  end.

Definition has_id (id : Z) (m : Message) : bool := (msg_id m =? id)%Z.

(** Modelled from the spec: a message is visible to readers when the
    current timestamp has reached its visibility deadline. *)
Definition visible (clock : Z) (m : Message) : bool := (vt m <=? clock)%Z.

(** [payload] was put at the end of the queue between the two stores, and
    a reader at the later store's clock sees it. *)
Definition enqueued_visible (queueName : string) (payload : Task) (before after : Store)
    : Prop :=
  exists q q' stored,
    queues before !! queueName = Some q
    /\ queues after !! queueName = Some q'
    /\ messages q' = messages q ++ [stored]
    /\ message stored = payload
    /\ visible (now after) stored = true.

(** The message [id] is in the queue. *)
Definition holds (s : Store) (queueName : string) (id : Z) : bool :=
  match queues s !! queueName with
  | Some q => existsb (has_id id) (messages q)
  | None => false
  end.

(** Modelled from the spec: the primitive [send] (queue, payload, [delay])
    enqueues one message under the next identifier and answers one row with
    the new id; it is rejected when the queue does not exist. *)
Definition send (queueName : string) (payload : Task) (delaySql : Value) (s : Store)
    : Outcome (list Row) * Store :=
  match queues s !! queueName, deadline (now s) delaySql with
  | Some q, Some due =>
      let m := {| msg_id := next_id q; read_ct := 0; enqueued_at := now s;
                  vt := due; message := payload |} in
      let q' := {| next_id := next_id q + 1; messages := messages q ++ [m] |} in
      (Fulfilled [[("send", VNumber (next_id q))]],
       {| now := now s; queues := <[queueName := q']> (queues s) |})
  | None, _ => (Rejected (EngineError "queue does not exist"), s)
  | _, None => (Rejected (EngineError "invalid delay"), s)
  end.

(** Modelled from the spec: the primitive [delete] (queue, id) removes the
    message for good and answers one row with a boolean, [false] when the id
    is not in the queue. *)
Definition delete (queueName : string) (id : Z) (s : Store) : Outcome (list Row) * Store :=
  match queues s !! queueName with
  | Some q =>
      let q' := {| next_id := next_id q;
                   messages := List.filter (fun m => negb (has_id id m)) (messages q) |} in
      (Fulfilled [[("delete", VBool (existsb (has_id id) (messages q)))]],
       {| now := now s; queues := <[queueName := q']> (queues s) |})
  | None => (Rejected (EngineError "queue does not exist"), s)
  end.

(** Modelled from the spec: the engine recognises the primitive by the
    text of the call and takes its positional arguments in order; any other
    call is rejected. *)
Definition query (strings : list string) (values : list Value) (s : Store)
    : Outcome (list Row) * Store :=
  if decide (strings = ["SELECT pgmq.send("; ", "; ""; ")"]) then
    match values with
    | [VString queueName; VObject payload; delaySql] => send queueName payload delaySql s
    | _ => (Rejected (EngineError "invalid arguments"), s)
    end
  else if decide (strings = ["SELECT pgmq.delete("; ", "; "::integer)"]) then
    match values with
    | [VString queueName; VNumber id] => delete queueName id s
    | _ => (Rejected (EngineError "invalid arguments"), s)
    end
  else (Rejected (EngineError "unknown primitive"), s).

Definition engine : Engine Store :=
  {| engine_query := query;
     engine_execute := fun _ _ s => (Rejected (EngineError "unknown primitive"), s) |}.

(** A store with one queue holding one message, at time 5000. *)
Definition sample : Store :=
  {| now := 5000;
     queues := {[ "q1" := {| next_id := 2;
                             messages := [ {| msg_id := 1; read_ct := 0; enqueued_at := 4000;
                                              vt := 4000;
                                              message := [("a", VNumber 1)] |} ] |} ]} |}.

End Reference.

(** ** Handles that answer every call the same way *)

(** What a test double does: every raw query settles with [answer], and
    nothing else happens. *)
Definition stub (answer : Outcome (list Row)) : TransactionClient unit :=
  {| queryRaw := fun _ _ w => (answer, w);
     executeRaw := fun _ _ w => (Fulfilled 0%Z, w) |}.

(** What [delaySql] is bound to in [send] and [sendBatch]: the fragment
    [, ${delayRepr}] for a truthy delay, the empty fragment otherwise. *)
Definition delay_fragment (delay : Delay) : Value :=
  if truthy (delay_value delay)
  then sql [", "; ""]
           [if typeof_number (delay_value delay)
            then sql [""; "::integer"] [delay_value delay]
            else sql [""; ""] [delay_value delay]]
  else sql [""] [].

(** The test a caller can make on a thrown value to recognise the failure
    of the single-row functions on an empty result: a plain [Error] whose
    message starts with the text the functions share. *)
Definition is_protocol_error (e : JsError) : bool :=
  String.eqb (error_class e) "Error"
  && String.prefix "No result returned from pgmq." (error_message e).

(** What the spec's table asks of the engine's [delete] on one id: on an
    existing queue it answers one row whose [delete] column tells whether the
    message was there, the queue stays, and the message is gone afterwards. *)
Definition delete_contract {DB} (E : Engine DB) (queue_exists : DB -> string -> Prop)
    (present : DB -> string -> Z -> bool) : Prop :=
  forall d queueName id,
    queue_exists d queueName ->
    exists row d',
      engine_query E ["SELECT pgmq.delete("; ", "; "::integer)"]
                     [VString queueName; VNumber id] d = (Fulfilled [row], d')
      /\ prop "delete" row = VBool (present d queueName id)
      /\ queue_exists d' queueName
      /\ present d' queueName id = false.

(** ** The engine boundary as a table

    For each method call, the raw call its Operation Layer function makes:
    which of the two raw methods, the literal chunks of the template and the
    interpolated values in order.  The table is tied to the functions by
    [operation_issues_its_call] below. *)

Inductive RawMethod : Type :=
  | ViaQueryRaw
  | ViaExecuteRaw.

Record RawCall : Type := MkRawCall {
  raw_method : RawMethod;
  raw_strings : list string;
  raw_values : list Value
}.

Definition call_of {A} (o : Op A) : RawCall :=
  match o with
  | OpSend q m d =>
      MkRawCall ViaQueryRaw ["SELECT pgmq.send("; ", "; ""; ")"]
                [VString q; VObject m; delay_fragment d]
  | OpSendBatch q ms d =>
      MkRawCall ViaQueryRaw ["SELECT pgmq.send_batch("; ", "; ""; ")"]
                [VString q; VArray (VObject <$> ms); delay_fragment d]
  | OpRead q vt qty c =>
      MkRawCall ViaQueryRaw
                ["SELECT * FROM pgmq.read("; ", "; "::integer, "; "::integer, "; ")"]
                [VString q; VNumber vt; VNumber (default 1%Z qty); VObject (default [] c)]
  | OpReadWithPoll q vt qty mp pi c =>
      MkRawCall ViaQueryRaw
                ["SELECT * FROM pgmq.read_with_poll("; ", "; "::integer, "; "::integer, ";
                 "::integer, "; "::integer, "; ")"]
                [VString q; VNumber vt; VNumber (default 1%Z qty); VNumber (default 5%Z mp);
                 VNumber (default 100%Z pi); VObject (default [] c)]
  | OpPop q => MkRawCall ViaQueryRaw ["SELECT * FROM pgmq.pop("; ")"] [VString q]
  | OpDeleteMessage q i =>
      MkRawCall ViaQueryRaw ["SELECT pgmq.delete("; ", "; "::integer)"] [VString q; VNumber i]
  | OpDeleteBatch q ids =>
      MkRawCall ViaQueryRaw ["SELECT pgmq.delete("; ", "; "::integer[])"]
                [VString q; VArray (VNumber <$> ids)]
  | OpPurgeQueue q => MkRawCall ViaQueryRaw ["SELECT pgmq.purge_queue("; ")"] [VString q]
  | OpArchive q i =>
      MkRawCall ViaQueryRaw ["SELECT pgmq.archive("; ", "; "::integer)"] [VString q; VNumber i]
  | OpArchiveBatch q ids =>
      MkRawCall ViaQueryRaw ["SELECT pgmq.archive("; ", "; "::integer[])"]
                [VString q; VArray (VNumber <$> ids)]
  | OpCreateQueue q => MkRawCall ViaExecuteRaw ["SELECT pgmq.create("; ")"] [VString q]
  | OpCreatePartitionedQueue q p r =>
      MkRawCall ViaExecuteRaw ["SELECT pgmq.create_partitioned("; ", "; ", "; ")"]
                [VString q; VString (default "10000" p); VString (default "100000" r)]
  | OpCreateUnloggedQueue q =>
      MkRawCall ViaExecuteRaw ["SELECT pgmq.create_unlogged("; ")"] [VString q]
  | OpDetachArchive q =>
      MkRawCall ViaExecuteRaw ["SELECT pgmq.detach_archive("; ")"] [VString q]
  | OpDropQueue q => MkRawCall ViaQueryRaw ["SELECT pgmq.drop_queue("; ")"] [VString q]
  | OpSetVt q i off =>
      MkRawCall ViaQueryRaw ["SELECT * FROM pgmq.set_vt("; ", "; "::integer, "; "::integer)"]
                [VString q; VNumber i; VNumber off]
  | OpListQueues => MkRawCall ViaQueryRaw ["SELECT * FROM pgmq.list_queues()"] []
  | OpMetrics q => MkRawCall ViaQueryRaw ["SELECT * FROM pgmq.metrics("; ")"] [VString q]
  | OpMetricsAll => MkRawCall ViaQueryRaw ["SELECT * FROM pgmq.metrics_all()"] []
  end.

(** The name of the function in [src/pgmq.ts] a method call goes to. *)
Definition op_name {A} (o : Op A) : string :=
  match o with
  | OpSend _ _ _ => "send"
  | OpSendBatch _ _ _ => "sendBatch"
  | OpRead _ _ _ _ => "read"
  | OpReadWithPoll _ _ _ _ _ _ => "readWithPoll"
  | OpPop _ => "pop"
  | OpDeleteMessage _ _ => "deleteMessage"
  | OpDeleteBatch _ _ => "deleteBatch"
  | OpPurgeQueue _ => "purgeQueue"
  | OpArchive _ _ => "archive"
  | OpArchiveBatch _ _ => "archiveBatch"
  | OpCreateQueue _ => "createQueue"
  | OpCreatePartitionedQueue _ _ _ => "createPartitionedQueue"
  | OpCreateUnloggedQueue _ => "createUnloggedQueue"
  | OpDetachArchive _ => "detachArchive"
  | OpDropQueue _ => "dropQueue"
  | OpSetVt _ _ _ => "setVt"
  | OpListQueues => "listQueues"
  | OpMetrics _ => "metrics"
  | OpMetricsAll => "metricsAll"
  end.

(** The method calls whose function guards [result[0]]. *)
Definition single_row {A} (o : Op A) : bool :=
  match o with
  | OpSend _ _ _ | OpDeleteMessage _ _ | OpPurgeQueue _ | OpArchive _ _
  | OpDropQueue _ | OpSetVt _ _ _ | OpMetrics _ => true
  | _ => false
  end.

Definition call_event (c : RawCall) : Event :=
  match raw_method c with
  | ViaQueryRaw => EvQueryRaw (raw_strings c) (raw_values c)
  | ViaExecuteRaw => EvExecuteRaw (raw_strings c) (raw_values c)
  end.

(** Make a raw call on a handle; the answer is the rows of [$queryRaw] or
    the count of [$executeRaw]. *)
Definition issue {W} (tx : TransactionClient W) (c : RawCall) : Promise W (list Row + Z) :=
  match raw_method c with
  | ViaQueryRaw =>
      await (queryRaw tx (raw_strings c) (raw_values c)) (fun rows => resolve (inl rows))
  | ViaExecuteRaw =>
      await (executeRaw tx (raw_strings c) (raw_values c)) (fun n => resolve (inr n))
  end.

(** The same method call with every optional argument the caller left out
    written out as the default of the signature. *)
Definition with_defaults {A} (o : Op A) : Op A :=
  match o with
  | OpRead q vt qty c => OpRead q vt (Some (default 1%Z qty)) (Some (default [] c))
  | OpReadWithPoll q vt qty mp pi c =>
      OpReadWithPoll q vt (Some (default 1%Z qty)) (Some (default 5%Z mp))
                     (Some (default 100%Z pi)) (Some (default [] c))
  | OpCreatePartitionedQueue q p r =>
      OpCreatePartitionedQueue q (Some (default "10000" p)) (Some (default "100000" r))
  | o => o
  end.

(** ** Blocks of method calls

    A caller's block that awaits one method call after the other on the
    object it is given, and stops at the first that is rejected. *)

Definition AnyOp : Type := sigT Op.

Section Blocks.
Context {W : Type}.

Fixpoint facade_block (pgmq : PGMQTransactionClient.t W) (calls : list AnyOp)
    : Promise W unit :=
  match calls with
  | [] => resolve tt
  | existT _ o :: rest => await (facade_method pgmq o) (fun _ => facade_block pgmq rest)
  end.

Fixpoint operation_block (tx : TransactionClient W) (calls : list AnyOp) : Promise W unit :=
  match calls with
  | [] => resolve tt
  | existT _ o :: rest => await (operation tx o) (fun _ => operation_block tx rest)
  end.

(** The same calls, each made by the Operation Layer function inside a
    [$transaction] of its own. *)
Fixpoint scoped_block (prisma : PrismaClient W) (calls : list AnyOp) : Promise W unit :=
  match calls with
  | [] => resolve tt
  | existT _ o :: rest =>
      await (prisma_transaction prisma (fun tx => operation tx o))
            (fun _ => scoped_block prisma rest)
  end.

Fixpoint client_block (client : PrismaPGMQ.t W) (calls : list AnyOp) : Promise W unit :=
  match calls with
  | [] => resolve tt
  | existT _ o :: rest => await (client_method client o) (fun _ => client_block client rest)
  end.

End Blocks.

(** ** The extension that scopes every call, [src/pgmq-extension.ts]

    The variant of the extension written as
    [Prisma.defineExtension((client) => client.$extends({...}))]: every
    method of its [pgmq] namespace runs the Operation Layer function inside
    [client.$transaction], and [transaction] hands the caller's block an
    object of closures bound to the scope's handle. *)

Module pgmqScopedExtension.
Section Scoped.
Context {W : Type}.
Local Open Scope Z_scope.

Definition send (client : PrismaClient W) (queueName : string) (msg : Task) (delay : Delay) :=
  prisma_transaction client (fun tx => pgmq.send tx queueName msg delay).

Definition sendBatch (client : PrismaClient W) (queueName : string) (msgs : list Task)
    (delay : Delay) :=
  prisma_transaction client (fun tx => pgmq.sendBatch tx queueName msgs delay).

Definition read (client : PrismaClient W) (queueName : string) (vt : Z) (qty : option Z)
    (conditional : option Task) :=
  let qty := default 1 qty in
  let conditional := default [] conditional in
  prisma_transaction client (fun tx =>
    pgmq.read tx queueName vt (Some qty) (Some conditional)).

Definition readWithPoll (client : PrismaClient W) (queueName : string) (vt : Z)
    (qty maxPollSeconds pollIntervalMs : option Z) (conditional : option Task) :=
  let qty := default 1 qty in
  let maxPollSeconds := default 5 maxPollSeconds in
  let pollIntervalMs := default 100 pollIntervalMs in
  let conditional := default [] conditional in
  prisma_transaction client (fun tx =>
    pgmq.readWithPoll tx queueName vt (Some qty) (Some maxPollSeconds)
                      (Some pollIntervalMs) (Some conditional)).

Definition pop (client : PrismaClient W) (queueName : string) :=
  prisma_transaction client (fun tx => pgmq.pop tx queueName).

Definition deleteMessage (client : PrismaClient W) (queueName : string) (msgId : Z) :=
  prisma_transaction client (fun tx => pgmq.deleteMessage tx queueName msgId).

Definition deleteBatch (client : PrismaClient W) (queueName : string) (msgIds : list Z) :=
  prisma_transaction client (fun tx => pgmq.deleteBatch tx queueName msgIds).

Definition purgeQueue (client : PrismaClient W) (queueName : string) :=
  prisma_transaction client (fun tx => pgmq.purgeQueue tx queueName).

Definition archive (client : PrismaClient W) (queueName : string) (msgId : Z) :=
  prisma_transaction client (fun tx => pgmq.archive tx queueName msgId).

Definition archiveBatch (client : PrismaClient W) (queueName : string) (msgIds : list Z) :=
  prisma_transaction client (fun tx => pgmq.archiveBatch tx queueName msgIds).

Definition createQueue (client : PrismaClient W) (queueName : string) :=
  prisma_transaction client (fun tx => pgmq.createQueue tx queueName).

Definition createPartitionedQueue (client : PrismaClient W) (queueName : string)
    (partitionInterval retentionInterval : option string) :=
  let partitionInterval := default "10000" partitionInterval in
  let retentionInterval := default "100000" retentionInterval in
  prisma_transaction client (fun tx =>
    pgmq.createPartitionedQueue tx queueName (Some partitionInterval)
                                (Some retentionInterval)).

Definition createUnloggedQueue (client : PrismaClient W) (queueName : string) :=
  prisma_transaction client (fun tx => pgmq.createUnloggedQueue tx queueName).

Definition detachArchive (client : PrismaClient W) (queueName : string) :=
  prisma_transaction client (fun tx => pgmq.detachArchive tx queueName).

Definition dropQueue (client : PrismaClient W) (queueName : string) :=
  prisma_transaction client (fun tx => pgmq.dropQueue tx queueName).

Definition setVt (client : PrismaClient W) (queueName : string) (msgId vtOffset : Z) :=
  prisma_transaction client (fun tx => pgmq.setVt tx queueName msgId vtOffset).

Definition listQueues (client : PrismaClient W) :=
  prisma_transaction client (fun tx => pgmq.listQueues tx).

Definition metrics (client : PrismaClient W) (queueName : string) :=
  prisma_transaction client (fun tx => pgmq.metrics tx queueName).

Definition metricsAll (client : PrismaClient W) :=
  prisma_transaction client (fun tx => pgmq.metricsAll tx).

(** The object [txPgmq] built inside [transaction]: one closure per
    function, each with the scope's handle as first argument.  The closures
    declare their optional parameters without defaults and pass them on. *)
Record TxPgmq : Type := {
  tx_send : string -> Task -> Delay -> Promise W Value;
  tx_sendBatch : string -> list Task -> Delay -> Promise W (list Value);
  tx_read : string -> Z -> option Z -> option Task -> Promise W (list Row);
  tx_readWithPoll :
    string -> Z -> option Z -> option Z -> option Z -> option Task -> Promise W (list Row);
  tx_pop : string -> Promise W (list Row);
  tx_deleteMessage : string -> Z -> Promise W Value;
  tx_deleteBatch : string -> list Z -> Promise W (list Value);
  tx_purgeQueue : string -> Promise W Value;
  tx_archive : string -> Z -> Promise W Value;
  tx_archiveBatch : string -> list Z -> Promise W (list Value);
  tx_createQueue : string -> Promise W unit;
  tx_createPartitionedQueue : string -> option string -> option string -> Promise W unit;
  tx_createUnloggedQueue : string -> Promise W unit;
  tx_detachArchive : string -> Promise W unit;
  tx_dropQueue : string -> Promise W Value;
  tx_setVt : string -> Z -> Z -> Promise W Row;
  tx_listQueues : Promise W (list Row);
  tx_metrics : string -> Promise W Row;
  tx_metricsAll : Promise W (list Row)
}.

Definition txPgmq (tx : TransactionClient W) : TxPgmq :=
  {| tx_send := fun queueName msg delay => pgmq.send tx queueName msg delay;
     tx_sendBatch := fun queueName msgs delay => pgmq.sendBatch tx queueName msgs delay;
     tx_read := fun queueName vt qty conditional =>
       pgmq.read tx queueName vt qty conditional;
     tx_readWithPoll := fun queueName vt qty maxPollSeconds pollIntervalMs conditional =>
       pgmq.readWithPoll tx queueName vt qty maxPollSeconds pollIntervalMs conditional;
     tx_pop := fun queueName => pgmq.pop tx queueName;
     tx_deleteMessage := fun queueName msgId => pgmq.deleteMessage tx queueName msgId;
     tx_deleteBatch := fun queueName msgIds => pgmq.deleteBatch tx queueName msgIds;
     tx_purgeQueue := fun queueName => pgmq.purgeQueue tx queueName;
     tx_archive := fun queueName msgId => pgmq.archive tx queueName msgId;
     tx_archiveBatch := fun queueName msgIds => pgmq.archiveBatch tx queueName msgIds;
     tx_createQueue := fun queueName => pgmq.createQueue tx queueName;
     tx_createPartitionedQueue := fun queueName partitionInterval retentionInterval =>
       pgmq.createPartitionedQueue tx queueName partitionInterval retentionInterval;
     tx_createUnloggedQueue := fun queueName => pgmq.createUnloggedQueue tx queueName;
     tx_detachArchive := fun queueName => pgmq.detachArchive tx queueName;
     tx_dropQueue := fun queueName => pgmq.dropQueue tx queueName;
     tx_setVt := fun queueName msgId vtOffset => pgmq.setVt tx queueName msgId vtOffset;
     tx_listQueues := pgmq.listQueues tx;
     tx_metrics := fun queueName => pgmq.metrics tx queueName;
     tx_metricsAll := pgmq.metricsAll tx |}.

Definition transaction {A} (client : PrismaClient W) (callback : TxPgmq -> Promise W A)
    : Promise W A :=
  prisma_transaction client (fun tx => callback (txPgmq tx)).

End Scoped.
Arguments TxPgmq W : clear implicits.
End pgmqScopedExtension.

Section ScopedDispatch.
Context {W : Type}.

Definition scoped_extension_method {A} (client : PrismaClient W) (o : Op A) : Promise W A :=
  match o in Op A return Promise W A with
  | OpSend q m d => pgmqScopedExtension.send client q m d
  | OpSendBatch q ms d => pgmqScopedExtension.sendBatch client q ms d
  | OpRead q vt qty c => pgmqScopedExtension.read client q vt qty c
  | OpReadWithPoll q vt qty mp pi c => pgmqScopedExtension.readWithPoll client q vt qty mp pi c
  | OpPop q => pgmqScopedExtension.pop client q
  | OpDeleteMessage q i => pgmqScopedExtension.deleteMessage client q i
  | OpDeleteBatch q ids => pgmqScopedExtension.deleteBatch client q ids
  | OpPurgeQueue q => pgmqScopedExtension.purgeQueue client q
  | OpArchive q i => pgmqScopedExtension.archive client q i
  | OpArchiveBatch q ids => pgmqScopedExtension.archiveBatch client q ids
  | OpCreateQueue q => pgmqScopedExtension.createQueue client q
  | OpCreatePartitionedQueue q p r => pgmqScopedExtension.createPartitionedQueue client q p r
  | OpCreateUnloggedQueue q => pgmqScopedExtension.createUnloggedQueue client q
  | OpDetachArchive q => pgmqScopedExtension.detachArchive client q
  | OpDropQueue q => pgmqScopedExtension.dropQueue client q
  | OpSetVt q i off => pgmqScopedExtension.setVt client q i off
  | OpListQueues => pgmqScopedExtension.listQueues client
  | OpMetrics q => pgmqScopedExtension.metrics client q
  | OpMetricsAll => pgmqScopedExtension.metricsAll client
  end.

Definition txPgmq_method {A} (this : pgmqScopedExtension.TxPgmq W) (o : Op A) : Promise W A :=
  match o in Op A return Promise W A with
  | OpSend q m d => pgmqScopedExtension.tx_send this q m d
  | OpSendBatch q ms d => pgmqScopedExtension.tx_sendBatch this q ms d
  | OpRead q vt qty c => pgmqScopedExtension.tx_read this q vt qty c
  | OpReadWithPoll q vt qty mp pi c =>
      pgmqScopedExtension.tx_readWithPoll this q vt qty mp pi c
  | OpPop q => pgmqScopedExtension.tx_pop this q
  | OpDeleteMessage q i => pgmqScopedExtension.tx_deleteMessage this q i
  | OpDeleteBatch q ids => pgmqScopedExtension.tx_deleteBatch this q ids
  | OpPurgeQueue q => pgmqScopedExtension.tx_purgeQueue this q
  | OpArchive q i => pgmqScopedExtension.tx_archive this q i
  | OpArchiveBatch q ids => pgmqScopedExtension.tx_archiveBatch this q ids
  | OpCreateQueue q => pgmqScopedExtension.tx_createQueue this q
  | OpCreatePartitionedQueue q p r => pgmqScopedExtension.tx_createPartitionedQueue this q p r
  | OpCreateUnloggedQueue q => pgmqScopedExtension.tx_createUnloggedQueue this q
  | OpDetachArchive q => pgmqScopedExtension.tx_detachArchive this q
  | OpDropQueue q => pgmqScopedExtension.tx_dropQueue this q
  | OpSetVt q i off => pgmqScopedExtension.tx_setVt this q i off
  | OpListQueues => pgmqScopedExtension.tx_listQueues this
  | OpMetrics q => pgmqScopedExtension.tx_metrics this q
  | OpMetricsAll => pgmqScopedExtension.tx_metricsAll this
  end.

Fixpoint txPgmq_block (pgmq : pgmqScopedExtension.TxPgmq W) (calls : list AnyOp)
    : Promise W unit :=
  match calls with
  | [] => resolve tt
  | existT _ o :: rest => await (txPgmq_method pgmq o) (fun _ => txPgmq_block pgmq rest)
  end.

End ScopedDispatch.

(** ** The query capture of the unit tests, [src/__tests__/mocks/prisma.mock.ts] *)

Module QueryCapture.

(** One captured call: [{ method, query, params }]. *)
Record Captured : Type := {
  method : string;
  query : list string;
  params : list Value
}.

(** What a default response resolves to: an array of rows, a count, or
    [undefined]. *)
Inductive Response : Type :=
  | Rows (rows : list Row)
  | Count (n : Z)
  | Undefined.

(** The private field [queries]. *)
Definition t : Type := list Captured.

Definition getDefaultResponse (method : string) : Response :=
  if decide (method = "$queryRaw") then Rows []
  else if decide (method = "$executeRaw") then Count 0
  else Undefined.

Definition capture (method : string) (query : list string) (params : list Value) (this : t)
    : Response * t :=
  (getDefaultResponse method,
   this ++ [{| method := method; query := query; params := params |}]).

(** [[...this.queries]] *)
Definition getQueries (this : t) : list Captured := this.

(** [this.queries[this.queries.length - 1]]; an index outside the array
    reads as [undefined]. *)
Definition getLastQuery (this : t) : option Captured :=
  let index := (Z.of_nat (length this) - 1)%Z in
  if (index <? 0)%Z then None else this !! Z.to_nat index.

Definition clear (this : t) : t := [].

End QueryCapture.

(** The cast [as any] of a captured answer where rows, or a count, are
    expected.  The capture answers [$queryRaw] with rows and [$executeRaw]
    with a count; the other cases do not occur for these two methods. *)
Definition as_rows (r : QueryCapture.Response) : list Row :=
  match r with
  | QueryCapture.Rows rows => rows
  | _ => []
  end.

Definition as_count (r : QueryCapture.Response) : Z :=
  match r with
  | QueryCapture.Count n => n
  | _ => 0%Z
  end.

(** The transaction client that [setupMockPrismaWithCapture] returns, before
    a test stubs an answer: both raw methods go to [capture]. *)
Definition mockTx : TransactionClient QueryCapture.t :=
  {| queryRaw := fun query args this =>
       let '(response, this') := QueryCapture.capture "$queryRaw" query args this in
       (Fulfilled (as_rows response), this');
     executeRaw := fun query args this =>
       let '(response, this') := QueryCapture.capture "$executeRaw" query args this in
       (Fulfilled (as_count response), this') |}.

(** [prisma.$transaction] as [setupMockPrismaWithCapture] stubs it: an
    argument that is a function is called with [mockTx] and its promise is
    returned.  (An argument that is not a function is returned as it is; the
    client only ever passes a function.) *)
Definition mock_transaction {A}
    (callback : TransactionClient QueryCapture.t -> Promise QueryCapture.t A)
    : Promise QueryCapture.t A :=
  callback mockTx.

(** The Prisma client of the set-up.  Only [$transaction] is given an
    implementation there; the two raw methods are whatever the deep mock
    does, taken as parameters. *)
Definition mockPrisma
    (rawQuery : list string -> list Value -> Promise QueryCapture.t (list Row))
    (rawExecute : list string -> list Value -> Promise QueryCapture.t Z)
    : PrismaClient QueryCapture.t :=
  {| prisma_queryRaw := rawQuery;
     prisma_executeRaw := rawExecute;
     prisma_transaction := @mock_transaction |}.

(** The name under which the capture files a raw call. *)
Definition method_name (m : RawMethod) : string :=
  match m with
  | ViaQueryRaw => "$queryRaw"
  | ViaExecuteRaw => "$executeRaw"
  end.

(** The engine function a method call names in its template. *)
Definition primitive {A} (o : Op A) : string :=
  match o with
  | OpSend _ _ _ => "send"
  | OpSendBatch _ _ _ => "send_batch"
  | OpRead _ _ _ _ => "read"
  | OpReadWithPoll _ _ _ _ _ _ => "read_with_poll"
  | OpPop _ => "pop"
  | OpDeleteMessage _ _ | OpDeleteBatch _ _ => "delete"
  | OpPurgeQueue _ => "purge_queue"
  | OpArchive _ _ | OpArchiveBatch _ _ => "archive"
  | OpCreateQueue _ => "create"
  | OpCreatePartitionedQueue _ _ _ => "create_partitioned"
  | OpCreateUnloggedQueue _ => "create_unlogged"
  | OpDetachArchive _ => "detach_archive"
  | OpDropQueue _ => "drop_queue"
  | OpSetVt _ _ _ => "set_vt"
  | OpListQueues => "list_queues"
  | OpMetrics _ => "metrics"
  | OpMetricsAll => "metrics_all"
  end.

(** The literal chunks of the last raw call on a trace. *)
Definition last_call_text (t : list Event) : option (list string) :=
  match last t with
  | Some (EvQueryRaw strings _) | Some (EvExecuteRaw strings _) => Some strings
  | _ => None
  end.

(** A client on which only [$transaction] works, and one on which only the
    raw methods work. *)
Definition scope_only_client {DB} (E : Engine DB) : PrismaClient (World DB) :=
  {| prisma_queryRaw := fun _ _ => throw (Error "not available");
     prisma_executeRaw := fun _ _ => throw (Error "not available");
     prisma_transaction := @run_transaction DB E |}.

Definition raw_only_client {DB} (E : Engine DB) : PrismaClient (World DB) :=
  {| prisma_queryRaw := queryRaw (engine_handle E);
     prisma_executeRaw := executeRaw (engine_handle E);
     prisma_transaction := fun A _ => throw (Error "not available") |}.

(** * Properties *)

(** ** Promises and traces *)

Lemma await_fulfilled {W A B} (p : Promise W A) (k : A -> Promise W B) w a w' :
  p w = (Fulfilled a, w') -> await p k w = k a w'.
Proof. unfold await. by intros ->. Qed.

Lemma await_rejected {W A B} (p : Promise W A) (k : A -> Promise W B) w e w' :
  p w = (Rejected e, w') -> await p k w = (Rejected e, w').
Proof. unfold await. by intros ->. Qed.

Lemma round_trips_app t1 t2 : round_trips (t1 ++ t2) = (round_trips t1 + round_trips t2)%nat.
Proof. unfold round_trips. by rewrite filter_app, length_app. Qed.

Lemma scopes_opened_app t1 t2 :
  scopes_opened (t1 ++ t2) = (scopes_opened t1 + scopes_opened t2)%nat.
Proof. unfold scopes_opened. by rewrite filter_app, length_app. Qed.

Section EngineTraces.
Context {DB : Type} (E : Engine DB).

(** A raw query through the engine's handle is one event, whatever the
    engine answers. *)
Lemma queryRaw_trace strings values (w : World DB) :
  trace (queryRaw (engine_handle E) strings values w).2
  = trace w ++ [EvQueryRaw strings values].
Proof. simpl. by destruct (engine_query E strings values (db w)). Qed.

Lemma executeRaw_trace strings values (w : World DB) :
  trace (executeRaw (engine_handle E) strings values w).2
  = trace w ++ [EvExecuteRaw strings values].
Proof. simpl. by destruct (engine_execute E strings values (db w)). Qed.

(** Every Operation Layer function adds exactly one event to the trace,
    and that event is a raw call. *)
Lemma operation_trace {A} (o : Op A) (w : World DB) :
  exists ev, is_engine_call ev = true
    /\ trace (operation (engine_handle E) o w).2 = trace w ++ [ev].
Proof.
  destruct o; simpl;
    unfold pgmq.send, pgmq.sendBatch, pgmq.read, pgmq.readWithPoll, pgmq.pop,
      pgmq.deleteMessage, pgmq.deleteBatch, pgmq.purgeQueue, pgmq.archive,
      pgmq.archiveBatch, pgmq.createQueue, pgmq.createPartitionedQueue,
      pgmq.createUnloggedQueue, pgmq.detachArchive, pgmq.dropQueue, pgmq.setVt,
      pgmq.listQueues, pgmq.metrics, pgmq.metricsAll, await; simpl;
    repeat match goal with
           | |- context [engine_query E ?s ?v ?d] =>
               destruct (engine_query E s v d) as [[rows|e] d']
           | |- context [engine_execute E ?s ?v ?d] =>
               destruct (engine_execute E s v d) as [[n|e] d']
           end;
    try (destruct rows as [|firstResult rest]);
    simpl; eexists; (split; [|reflexivity]); reflexivity.
Qed.

End EngineTraces.

(** ** The Operation Layer and the engine boundary *)

(** C5: every Operation Layer function, on every argument tuple (the batch
    deletions with an empty id list among them) and against every engine,
    whatever the engine answers, makes exactly one raw call: the trace grows
    by one event, which is a round trip, so the count of round trips grows by
    one and nothing is retried. *)
Theorem operation_one_round_trip {DB} (E : Engine DB) {A} (o : Op A) (w : World DB) :
  round_trips (trace (operation (engine_handle E) o w).2) = S (round_trips (trace w))
  /\ exists ev, is_engine_call ev = true
       /\ trace (operation (engine_handle E) o w).2 = trace w ++ [ev].
Proof.
  destruct (operation_trace E o w) as (ev & Hcall & Htrace).
  split; [|by exists ev].
  rewrite Htrace, round_trips_app. unfold round_trips at 2. simpl.
  rewrite filter_cons_True by done. simpl. lia.
Qed.

Example deleteBatch_empty_one_round_trip :
  trace (pgmq.deleteBatch (engine_handle Reference.engine) "q1" [] (MkWorld Reference.sample [])).2
  = [EvQueryRaw ["SELECT pgmq.delete("; ", "; "::integer[])"] [VString "q1"; VArray []]].
Proof. reflexivity. Qed.

Example archiveBatch_empty_one_round_trip :
  trace (pgmq.archiveBatch (engine_handle Reference.engine) "q1" [] (MkWorld Reference.sample [])).2
  = [EvQueryRaw ["SELECT pgmq.archive("; ", "; "::integer[])"] [VString "q1"; VArray []]].
Proof. reflexivity. Qed.

(** C6: [readWithPoll] is one raw call of the [read_with_poll] primitive and
    nothing else: its promise is the promise of that call, its positional
    values are, in this order, the queue, the visibility window, the limit,
    the maximal wait, the poll interval and the filter (1, 5, 100 and the
    empty filter stand in for the ones left out), and the wait parameters
    the caller gives are passed as given.  There is no loop and no timer on
    the client side. *)
Theorem readWithPoll_one_call_verbatim {DB} (E : Engine DB) (queueName : string) (vt : Z)
    (qty : option Z) (conditional : option Task) (w : World DB) :
  let strings := ["SELECT * FROM pgmq.read_with_poll("; ", "; "::integer, "; "::integer, ";
                  "::integer, "; "::integer, "; ")"] in
  (forall maxPollSeconds pollIntervalMs,
      let values := [VString queueName; VNumber vt; VNumber (default 1%Z qty);
                     VNumber (default 5%Z maxPollSeconds);
                     VNumber (default 100%Z pollIntervalMs);
                     VObject (default [] conditional)] in
      pgmq.readWithPoll (engine_handle E) queueName vt qty maxPollSeconds pollIntervalMs
                        conditional w
      = queryRaw (engine_handle E) strings values w
      /\ trace (pgmq.readWithPoll (engine_handle E) queueName vt qty maxPollSeconds
                                  pollIntervalMs conditional w).2
         = trace w ++ [EvQueryRaw strings values])
  /\ (forall maxWaitSeconds pollInterval,
         trace (pgmq.readWithPoll (engine_handle E) queueName vt qty (Some maxWaitSeconds)
                                  (Some pollInterval) conditional w).2
         = trace w ++ [EvQueryRaw strings
                         [VString queueName; VNumber vt; VNumber (default 1%Z qty);
                          VNumber maxWaitSeconds; VNumber pollInterval;
                          VObject (default [] conditional)]]).
Proof.
  intros strings. split.
  - intros maxPollSeconds pollIntervalMs values. split; [reflexivity|].
    unfold pgmq.readWithPoll. apply queryRaw_trace.
  - intros maxWaitSeconds pollInterval. unfold pgmq.readWithPoll. apply queryRaw_trace.
Qed.

Example readWithPoll_sample_call :
  trace (pgmq.readWithPoll (engine_handle Reference.engine) "q1" 30 (Some 1%Z) (Some 10%Z)
                           (Some 500%Z) None (MkWorld Reference.sample [])).2
  = [EvQueryRaw ["SELECT * FROM pgmq.read_with_poll("; ", "; "::integer, "; "::integer, ";
                 "::integer, "; "::integer, "; ")"]
                [VString "q1"; VNumber 30; VNumber 1; VNumber 10; VNumber 500; VObject []]].
Proof. reflexivity. Qed.

(** ** Delegation between the layers *)

Section ScopedTraces.
Context {DB : Type} (E : Engine DB).

(** A block made of one operation, run in a scope: the scope opens, the
    operation makes its round trip, the scope closes. *)
Lemma run_transaction_operation_trace {A} (o : Op A) (w : World DB) :
  exists ev closing,
    is_engine_call ev = true
    /\ (closing = EvCommit \/ closing = EvRollback)
    /\ trace (run_transaction E (fun tx => operation tx o) w).2
       = trace w ++ [EvBegin; ev; closing].
Proof.
  unfold run_transaction.
  destruct (operation_trace E o (record EvBegin w)) as (ev & Hcall & Htrace).
  destruct (operation (engine_handle E) o (record EvBegin w)) as [[a|e] w'];
    simpl in *; rewrite Htrace, <- !app_assoc; simpl; eauto 10.
Qed.

End ScopedTraces.

Lemma facade_method_operation {W A} (tx : TransactionClient W) (o : Op A) :
  facade_method (PGMQTransactionClient.new tx) o = operation tx o.
Proof. by destruct o. Qed.

Lemma client_method_transaction {W A} (prisma : PrismaClient W) (o : Op A) :
  client_method (PrismaPGMQ.new prisma) o
  = prisma_transaction prisma (fun tx => facade_method (PGMQTransactionClient.new tx) o).
Proof. by destruct o. Qed.

Lemma client_method_scoped_operation {W A} (prisma : PrismaClient W) (o : Op A) :
  client_method (PrismaPGMQ.new prisma) o
  = prisma_transaction prisma (fun tx => operation tx o).
Proof. by destruct o. Qed.

Lemma extension_method_operation {W A} (receiver : JsObject W) (o : Op A) :
  extension_method receiver o = operation (as_any receiver) o.
Proof. by destruct o. Qed.

(** C2: for every method call, the Convenience Client's method is one call
    of [$transaction] whose block evaluates the Bound Client Facade's method
    of the same name on a facade made for the scope's handle; the facade's
    method is the Operation Layer function on that handle with the same
    arguments and defaults, its promise returned as it is.  Against an engine
    this is one scope around one round trip. *)
Theorem convenience_client_delegates :
  (forall W (prisma : PrismaClient W) A (o : Op A),
      client_method (PrismaPGMQ.new prisma) o
      = prisma_transaction prisma
          (fun tx => facade_method (PGMQTransactionClient.new tx) o))
  /\ (forall W (tx : TransactionClient W) A (o : Op A),
         facade_method (PGMQTransactionClient.new tx) o = operation tx o)
  /\ (forall DB (E : Engine DB) A (o : Op A) (w : World DB),
         client_method (PrismaPGMQ.new (engine_client E)) o w
         = run_transaction E (fun tx => operation tx o) w
         /\ scopes_opened (trace (client_method (PrismaPGMQ.new (engine_client E)) o w).2)
            = S (scopes_opened (trace w))
         /\ round_trips (trace (client_method (PrismaPGMQ.new (engine_client E)) o w).2)
            = S (round_trips (trace w))).
Proof.
  split; [intros; apply client_method_transaction|].
  split; [intros; apply facade_method_operation|].
  intros DB E A o w. rewrite client_method_scoped_operation. simpl.
  split; [reflexivity|].
  destruct (run_transaction_operation_trace E o w) as (ev & closing & Hcall & Hclose & ->).
  rewrite scopes_opened_app, round_trips_app.
  unfold scopes_opened at 2, round_trips at 2.
  destruct ev; try discriminate; destruct Hclose as [-> | ->]; simpl; split; lia.
Qed.

(** C8, which the code does not meet: in a call
    [prisma.$pgmq.send('my-queue', { data: 'hello' })] the receiver of the
    method is the [$pgmq] object, which [Prisma.getExtensionContext] returns
    as it is and the method passes on as the handle; that object has no
    [$queryRaw], so the promise is rejected with a [TypeError] and nothing
    reaches the engine, where the Operation Layer function on the client
    makes its one round trip. *)
Theorem extension_send_on_namespace_throws {DB} (E : Engine DB) (w : World DB) :
  pgmqExtension.send namespace_object "my-queue" [("data", VString "hello")] DelayOmitted w
  = (Rejected (TypeError "tx.$queryRaw is not a function"), w)
  /\ round_trips
       (trace (pgmqExtension.send namespace_object "my-queue" [("data", VString "hello")]
                                  DelayOmitted w).2)
     = round_trips (trace w)
  /\ round_trips
       (trace (pgmq.send (as_any (client_object (engine_client E))) "my-queue"
                         [("data", VString "hello")] DelayOmitted w).2)
     = S (round_trips (trace w)).
Proof.
  split; [reflexivity|]. split; [reflexivity|].
  change (as_any (client_object (engine_client E))) with (engine_handle E).
  destruct (operation_trace E (OpSend "my-queue" [("data", VString "hello")] DelayOmitted) w)
    as (ev & Hcall & Htrace).
  simpl in Htrace. rewrite Htrace, round_trips_app.
  unfold round_trips at 2. destruct ev; try discriminate; simpl; lia.
Qed.

(** ** Transactions *)

(** C1: [PrismaPGMQ.transaction] hands the caller's block, applied to a
    facade on the scope's handle, to [$transaction] and returns its promise
    as it is.  Against an engine: when the block is fulfilled its value is
    returned and the scope commits the block's effects; when the block is
    rejected the database is as it was before the scope and the promise is
    rejected with the same value; and a block that awaits a computation
    which is rejected, and does not catch it, is rejected with that value,
    so the scope rolls back. *)
Theorem transaction_commits_or_rolls_back :
  (forall W (prisma : PrismaClient W) A (callback : PGMQTransactionClient.t W -> Promise W A),
      PrismaPGMQ.transaction (PrismaPGMQ.new prisma) callback
      = prisma_transaction prisma (fun tx => callback (PGMQTransactionClient.new tx)))
  /\ (forall DB (E : Engine DB) A
        (callback : PGMQTransactionClient.t (World DB) -> Promise (World DB) A) (w : World DB),
         PrismaPGMQ.transaction (PrismaPGMQ.new (engine_client E)) callback w
         = match callback (PGMQTransactionClient.new (engine_handle E)) (record EvBegin w) with
           | (Fulfilled a, w') => (Fulfilled a, MkWorld (db w') (trace w' ++ [EvCommit]))
           | (Rejected e, w') => (Rejected e, MkWorld (db w) (trace w' ++ [EvRollback]))
           end)
  /\ (forall DB (E : Engine DB) A B
        (first : PGMQTransactionClient.t (World DB) -> Promise (World DB) A)
        (rest : A -> PGMQTransactionClient.t (World DB) -> Promise (World DB) B)
        (w : World DB) (e : JsError) (w' : World DB),
         first (PGMQTransactionClient.new (engine_handle E)) (record EvBegin w)
         = (Rejected e, w') ->
         PrismaPGMQ.transaction (PrismaPGMQ.new (engine_client E))
           (fun pgmq => await (first pgmq) (fun x => rest x pgmq)) w
         = (Rejected e, MkWorld (db w) (trace w' ++ [EvRollback]))).
Proof.
  split; [reflexivity|]. split; [reflexivity|].
  intros DB E A B first rest w e w' Hfirst.
  unfold PrismaPGMQ.transaction. simpl. unfold run_transaction.
  by rewrite (await_rejected _ _ _ _ _ Hfirst).
Qed.

(** A block that enqueues into [q1], then into a queue that does not exist,
    and would then delete: the engine's rejection comes out unchanged, the
    deletion is never asked for and the first message is not in the store. *)
Lemma transaction_commits_or_rolls_back_witness :
  PrismaPGMQ.transaction (PrismaPGMQ.new (engine_client Reference.engine))
    (fun pgmq =>
       await (await (PGMQTransactionClient.send pgmq "q1" [("a", VNumber 2)] DelayOmitted)
                    (fun _ => PGMQTransactionClient.send pgmq "missing" [] DelayOmitted))
             (fun _ => PGMQTransactionClient.deleteMessage pgmq "q1" 1))
    (MkWorld Reference.sample [])
  = (Rejected (Reference.EngineError "queue does not exist"),
     MkWorld Reference.sample
       [EvBegin;
        EvQueryRaw ["SELECT pgmq.send("; ", "; ""; ")"]
                   [VString "q1"; VObject [("a", VNumber 2)]; VSql [""] []];
        EvQueryRaw ["SELECT pgmq.send("; ", "; ""; ")"]
                   [VString "missing"; VObject []; VSql [""] []];
        EvRollback]).
Proof.
  pose proof (proj2 (proj2 transaction_commits_or_rolls_back) _ Reference.engine _ _
                (fun pgmq =>
                   await (PGMQTransactionClient.send pgmq "q1" [("a", VNumber 2)] DelayOmitted)
                         (fun _ => PGMQTransactionClient.send pgmq "missing" [] DelayOmitted))
                (fun _ pgmq => PGMQTransactionClient.deleteMessage pgmq "q1" 1)
                (MkWorld Reference.sample [])
                (Reference.EngineError "queue does not exist")
                (MkWorld
                   (Reference.send "q1" [("a", VNumber 2)] (VSql [""] []) Reference.sample).2
                   [EvBegin;
                    EvQueryRaw ["SELECT pgmq.send("; ", "; ""; ")"]
                               [VString "q1"; VObject [("a", VNumber 2)]; VSql [""] []];
                    EvQueryRaw ["SELECT pgmq.send("; ", "; ""; ")"]
                               [VString "missing"; VObject []; VSql [""] []]])) as H.
  apply H. vm_compute. reflexivity.
Defined.

(** ** Single-row operations *)

(** What the guard on [result[0]] comes to, for any handle. *)
Lemma first_row_guard {W A} (p : Promise W (list Row)) (failure : JsError)
    (project : Row -> A) (w : W) :
  await p (fun result =>
             match result !! 0%nat with
             | None => throw failure
             | Some firstResult => resolve (project firstResult)
             end) w
  = match p w with
    | (Fulfilled [], w') => (Rejected failure, w')
    | (Fulfilled (firstResult :: _), w') => (Fulfilled (project firstResult), w')
    | (Rejected e, w') => (Rejected e, w')
    end.
Proof. unfold await. by destruct (p w) as [[[|firstResult rest]|e] w']. Qed.

(** [send], [metrics] and [setVt] by the answer of their raw call: what the
    first row carries, the plain [Error] naming the primitive when there is
    no row, and the engine's own failure passed on as it is. *)
Theorem send_metrics_setVt_single_row {W} (tx : TransactionClient W) (queueName : string)
    (msg : Task) (delay : Delay) (msgId vtOffset : Z) (w : W) :
  pgmq.send tx queueName msg delay w
  = match queryRaw tx ["SELECT pgmq.send("; ", "; ""; ")"]
                      [VString queueName; VObject msg; delay_fragment delay] w with
    | (Fulfilled [], w') => (Rejected (Error "No result returned from pgmq.send"), w')
    | (Fulfilled (row :: _), w') => (Fulfilled (prop "send" row), w')
    | (Rejected e, w') => (Rejected e, w')
    end
  /\ pgmq.metrics tx queueName w
     = match queryRaw tx ["SELECT * FROM pgmq.metrics("; ")"] [VString queueName] w with
       | (Fulfilled [], w') => (Rejected (Error "No result returned from pgmq.metrics"), w')
       | (Fulfilled (row :: _), w') => (Fulfilled row, w')
       | (Rejected e, w') => (Rejected e, w')
       end
  /\ pgmq.setVt tx queueName msgId vtOffset w
     = match queryRaw tx ["SELECT * FROM pgmq.set_vt("; ", "; "::integer, "; "::integer)"]
                         [VString queueName; VNumber msgId; VNumber vtOffset] w with
       | (Fulfilled [], w') => (Rejected (Error "No result returned from pgmq.set_vt"), w')
       | (Fulfilled (row :: _), w') => (Fulfilled row, w')
       | (Rejected e, w') => (Rejected e, w')
       end.
Proof.
  split; [|split].
  - unfold pgmq.send. apply first_row_guard.
  - unfold pgmq.metrics. apply (first_row_guard _ _ (fun row => row)).
  - unfold pgmq.setVt. apply (first_row_guard _ _ (fun row => row)).
Qed.

(** What a guarded function tells its caller, given its behaviour by the
    answer of the raw call. *)
Lemma single_row_kind {W A} (F : Promise W A) (C : Promise W (list Row)) (P : Row -> A)
    (message : string) (w : W) :
  F w = match C w with
        | (Fulfilled [], w') => (Rejected (Error message), w')
        | (Fulfilled (row :: _), w') => (Fulfilled (P row), w')
        | (Rejected e, w') => (Rejected e, w')
        end ->
  is_protocol_error (Error message) = true ->
  (forall e w', C w = (Rejected e, w') -> is_protocol_error e = false) ->
  (forall row w', C w = (Fulfilled [row], w') -> F w = (Fulfilled (P row), w'))
  /\ (forall rows w', C w = (Fulfilled rows, w') ->
        (rows = [] <-> exists e, F w = (Rejected e, w')))
  /\ (forall e w', F w = (Rejected e, w') ->
        (is_protocol_error e = true <-> C w = (Fulfilled [], w'))).
Proof.
  intros HF Hkind Hengine. rewrite HF.
  destruct (C w) as [[[|first rest]|e0] w0].
  - split; [intros row w' [=]|]. split.
    + intros rows w' [= <- <-]. split; [eauto | done].
    + intros e w' [= <- <-]. by split.
  - split; [by intros row w' [= -> -> <-]|]. split.
    + intros rows w' [= <- <-]. split; [done | intros [e [=]]].
    + intros e w' [=].
  - split; [intros row w' [=]|]. split.
    + intros rows w' [=].
    + intros e w' [= <- <-]. rewrite (Hengine e0 w0 eq_refl). by split.
Qed.

(** C3: [send], [metrics] and [setVt] return the value the single row
    carries when the engine answers with exactly one row, and when it
    answers with rows they fail exactly when there are none.  The failure for
    zero rows is of a kind of its own, a plain [Error] whose message starts
    with 'No result returned from pgmq.', which the test [is_protocol_error]
    recognises: as long as the engine's own failures are not of that kind,
    a failure of these functions passes the test exactly when the engine
    answered with zero rows, and otherwise is the engine's failure. *)
Theorem zero_rows_failure_is_distinguishable {W} (tx : TransactionClient W)
    (queueName : string) (msg : Task) (delay : Delay) (msgId vtOffset : Z) (w : W) :
  (forall strings values e w',
     queryRaw tx strings values w = (Rejected e, w') -> is_protocol_error e = false) ->
  ((forall row w',
      queryRaw tx ["SELECT pgmq.send("; ", "; ""; ")"]
                  [VString queueName; VObject msg; delay_fragment delay] w
      = (Fulfilled [row], w') ->
      pgmq.send tx queueName msg delay w = (Fulfilled (prop "send" row), w'))
   /\ (forall rows w',
         queryRaw tx ["SELECT pgmq.send("; ", "; ""; ")"]
                     [VString queueName; VObject msg; delay_fragment delay] w
         = (Fulfilled rows, w') ->
         (rows = [] <-> exists e, pgmq.send tx queueName msg delay w = (Rejected e, w')))
   /\ (forall e w',
         pgmq.send tx queueName msg delay w = (Rejected e, w') ->
         (is_protocol_error e = true
          <-> queryRaw tx ["SELECT pgmq.send("; ", "; ""; ")"]
                          [VString queueName; VObject msg; delay_fragment delay] w
              = (Fulfilled [], w'))))
  /\ ((forall row w',
         queryRaw tx ["SELECT * FROM pgmq.metrics("; ")"] [VString queueName] w
         = (Fulfilled [row], w') ->
         pgmq.metrics tx queueName w = (Fulfilled row, w'))
      /\ (forall rows w',
            queryRaw tx ["SELECT * FROM pgmq.metrics("; ")"] [VString queueName] w
            = (Fulfilled rows, w') ->
            (rows = [] <-> exists e, pgmq.metrics tx queueName w = (Rejected e, w')))
      /\ (forall e w',
            pgmq.metrics tx queueName w = (Rejected e, w') ->
            (is_protocol_error e = true
             <-> queryRaw tx ["SELECT * FROM pgmq.metrics("; ")"] [VString queueName] w
                 = (Fulfilled [], w'))))
  /\ ((forall row w',
         queryRaw tx ["SELECT * FROM pgmq.set_vt("; ", "; "::integer, "; "::integer)"]
                     [VString queueName; VNumber msgId; VNumber vtOffset] w
         = (Fulfilled [row], w') ->
         pgmq.setVt tx queueName msgId vtOffset w = (Fulfilled row, w'))
      /\ (forall rows w',
            queryRaw tx ["SELECT * FROM pgmq.set_vt("; ", "; "::integer, "; "::integer)"]
                        [VString queueName; VNumber msgId; VNumber vtOffset] w
            = (Fulfilled rows, w') ->
            (rows = [] <-> exists e,
                pgmq.setVt tx queueName msgId vtOffset w = (Rejected e, w')))
      /\ (forall e w',
            pgmq.setVt tx queueName msgId vtOffset w = (Rejected e, w') ->
            (is_protocol_error e = true
             <-> queryRaw tx ["SELECT * FROM pgmq.set_vt("; ", "; "::integer, ";
                              "::integer)"]
                            [VString queueName; VNumber msgId; VNumber vtOffset] w
                 = (Fulfilled [], w')))).
Proof.
  intros Hengine.
  destruct (send_metrics_setVt_single_row tx queueName msg delay msgId vtOffset w)
    as (Hsend & Hmetrics & HsetVt).
  split; [|split].
  - apply (single_row_kind _ _ _ _ _ Hsend); [reflexivity | apply Hengine].
  - apply (single_row_kind _ _ (fun row => row) _ _ Hmetrics); [reflexivity | apply Hengine].
  - apply (single_row_kind _ _ (fun row => row) _ _ HsetVt); [reflexivity | apply Hengine].
Qed.

(** On no rows the failure of [metrics] passes the test; a failure of the
    engine comes out as it is and does not. *)
Lemma zero_rows_failure_is_distinguishable_witness :
  (pgmq.metrics (stub (Fulfilled [])) "q1" tt
   = (Rejected (Error "No result returned from pgmq.metrics"), tt)
   /\ is_protocol_error (Error "No result returned from pgmq.metrics") = true)
  /\ (pgmq.send (stub (Rejected (Reference.EngineError "queue does not exist")))
                "missing" [] DelayOmitted tt
      = (Rejected (Reference.EngineError "queue does not exist"), tt)
      /\ ~ (is_protocol_error (Reference.EngineError "queue does not exist") = true)).
Proof.
  split.
  - split; [reflexivity|].
    apply (proj2 (proj2 (proj1 (proj2
             (zero_rows_failure_is_distinguishable (stub (Fulfilled [])) "q1" [] DelayOmitted
                0 0 tt (fun _ _ _ _ H => ltac:(discriminate H)))))) _ tt eq_refl).
    reflexivity.
  - split; [reflexivity|].
    intros Hkind.
    pose proof (proj1 (proj2 (proj2 (proj1
             (zero_rows_failure_is_distinguishable
                (stub (Rejected (Reference.EngineError "queue does not exist")))
                "missing" [] DelayOmitted 0 0 tt
                (fun _ _ e w' H => ltac:(injection H as <- _; reflexivity))))) _ tt eq_refl)
             Hkind) as Habsurd.
    discriminate Habsurd.
Defined.

(** C10: [deleteMessage], [purgeQueue], [archive] and [dropQueue] have the
    same guard: when the engine answers with no row they throw an error
    that names the primitive, and otherwise they return what the first row
    carries; with C3's three operations these are all the single-row
    operations, so each has an outcome for every number of rows. *)
Theorem delete_purge_archive_drop_single_row {W} (tx : TransactionClient W)
    (queueName : string) (msgId : Z) (w : W) :
  pgmq.deleteMessage tx queueName msgId w
  = match queryRaw tx ["SELECT pgmq.delete("; ", "; "::integer)"]
                      [VString queueName; VNumber msgId] w with
    | (Fulfilled [], w') => (Rejected (Error "No result returned from pgmq.delete"), w')
    | (Fulfilled (row :: _), w') => (Fulfilled (prop "delete" row), w')
    | (Rejected e, w') => (Rejected e, w')
    end
  /\ pgmq.purgeQueue tx queueName w
     = match queryRaw tx ["SELECT pgmq.purge_queue("; ")"] [VString queueName] w with
       | (Fulfilled [], w') =>
           (Rejected (Error "No result returned from pgmq.purge_queue"), w')
       | (Fulfilled (row :: _), w') => (Fulfilled (prop "purge_queue" row), w')
       | (Rejected e, w') => (Rejected e, w')
       end
  /\ pgmq.archive tx queueName msgId w
     = match queryRaw tx ["SELECT pgmq.archive("; ", "; "::integer)"]
                         [VString queueName; VNumber msgId] w with
       | (Fulfilled [], w') => (Rejected (Error "No result returned from pgmq.archive"), w')
       | (Fulfilled (row :: _), w') => (Fulfilled (prop "archive" row), w')
       | (Rejected e, w') => (Rejected e, w')
       end
  /\ pgmq.dropQueue tx queueName w
     = match queryRaw tx ["SELECT pgmq.drop_queue("; ")"] [VString queueName] w with
       | (Fulfilled [], w') =>
           (Rejected (Error "No result returned from pgmq.drop_queue"), w')
       | (Fulfilled (row :: _), w') => (Fulfilled (prop "drop_queue" row), w')
       | (Rejected e, w') => (Rejected e, w')
       end.
Proof.
  repeat split.
  - unfold pgmq.deleteMessage. apply first_row_guard.
  - unfold pgmq.purgeQueue. apply first_row_guard.
  - unfold pgmq.archive. apply first_row_guard.
  - unfold pgmq.dropQueue. apply first_row_guard.
Qed.

Example deleteMessage_zero_rows :
  pgmq.deleteMessage (stub (Fulfilled [])) "q" 7 tt
  = (Rejected (Error "No result returned from pgmq.delete"), tt).
Proof. reflexivity. Qed.

Example dropQueue_two_rows :
  pgmq.dropQueue (stub (Fulfilled [[("drop_queue", VBool true)]; [("drop_queue", VBool false)]]))
                 "q" tt
  = (Fulfilled (VBool true), tt).
Proof. reflexivity. Qed.

(** ** Batches and delays *)

(** C4: for the empty payload list, when the engine answers the
    [send_batch] call with one row per payload, hence with no row,
    [sendBatch] is fulfilled with the empty list of ids. *)
Theorem sendBatch_empty_is_empty {W} (tx : TransactionClient W) (queueName : string)
    (delay : Delay) (w : W) (rows : list Row) (w' : W) :
  queryRaw tx ["SELECT pgmq.send_batch("; ", "; ""; ")"]
              [VString queueName; VArray (VObject <$> []); delay_fragment delay] w
  = (Fulfilled rows, w') ->
  length rows = length (@nil Task) ->
  pgmq.sendBatch tx queueName [] delay w = (Fulfilled [], w').
Proof.
  intros Hcall Hrows. unfold pgmq.sendBatch.
  change (queryRaw tx _ _) with
    (queryRaw tx ["SELECT pgmq.send_batch("; ", "; ""; ")"]
                 [VString queueName; VArray (VObject <$> []); delay_fragment delay]).
  rewrite (await_fulfilled _ _ _ _ _ Hcall).
  by destruct rows.
Qed.

Lemma sendBatch_empty_is_empty_witness :
  pgmq.sendBatch (stub (Fulfilled [])) "q2" [] DelayOmitted tt = (Fulfilled [], tt).
Proof.
  apply (sendBatch_empty_is_empty (stub (Fulfilled [])) "q2" DelayOmitted tt [] tt).
  - reflexivity.
  - reflexivity.
Defined.

(** What [send] and [sendBatch] ask of the handle, with the delay fragment
    named. *)
Lemma send_call {W} (tx : TransactionClient W) queueName msg delay :
  pgmq.send tx queueName msg delay
  = await (queryRaw tx ["SELECT pgmq.send("; ", "; ""; ")"]
                       [VString queueName; VObject msg; delay_fragment delay])
          (fun result =>
             match result !! 0%nat with
             | None => throw (Error "No result returned from pgmq.send")
             | Some firstResult => resolve (prop "send" firstResult)
             end).
Proof. reflexivity. Qed.

Lemma sendBatch_call {W} (tx : TransactionClient W) queueName msgs delay :
  pgmq.sendBatch tx queueName msgs delay
  = await (queryRaw tx ["SELECT pgmq.send_batch("; ", "; ""; ")"]
                       [VString queueName; VArray (VObject <$> msgs); delay_fragment delay])
          (fun result => resolve (prop "send_batch" <$> result)).
Proof. reflexivity. Qed.

Lemma falsy_delay_fragment delay :
  truthy (delay_value delay) = false -> delay_fragment delay = sql [""] [].
Proof. unfold delay_fragment. by intros ->. Qed.

Lemma truthy_delay_fragment delay :
  truthy (delay_value delay) = true ->
  exists delayRepr, delay_fragment delay = sql [", "; ""] [delayRepr].
Proof. unfold delay_fragment. intros ->. eauto. Qed.

Lemma await_trace {DB B} (E : Engine DB) strings values
    (k : list Row -> Promise (World DB) B) (w : World DB) :
  (forall rows w', trace (k rows w').2 = trace w') ->
  trace (await (queryRaw (engine_handle E) strings values) k w).2
  = trace w ++ [EvQueryRaw strings values].
Proof.
  intros Hk. unfold await.
  pose proof (queryRaw_trace E strings values w) as Hq.
  destruct (queryRaw (engine_handle E) strings values w) as [[rows|e] w'];
    simpl in *; [by rewrite Hk|done].
Qed.

(** The reference engine stores a message sent without a delay fragment with
    its deadline at the enqueue timestamp. *)
Lemma reference_send_no_delay queueName payload (s : Reference.Store) :
  is_Some (Reference.queues s !! queueName) ->
  exists id s',
    Reference.query ["SELECT pgmq.send("; ", "; ""; ")"]
                    [VString queueName; VObject payload; sql [""] []] s
    = (Fulfilled [[("send", VNumber id)]], s')
    /\ Reference.enqueued_visible queueName payload s s'.
Proof.
  intros [q Hq]. unfold Reference.query. case_decide; [|done].
  unfold Reference.send. rewrite Hq. simpl.
  eexists _, _. split; [reflexivity|].
  eexists q, _, _. split; [exact Hq|]. simpl.
  split; [apply lookup_insert_eq|]. simpl.
  split; [reflexivity|]. split; [reflexivity|].
  unfold Reference.visible. simpl. lia.
Qed.

(** C9: for [send] and [sendBatch] a delay that is falsy (0, NaN, or left
    out) gives the same promise as no delay at all: the raw call carries the
    empty fragment in place of the delay, that is the call without a delay
    argument.  On the reference engine the message is then stored with its
    deadline at the enqueue timestamp, so it is visible at once. *)
Theorem falsy_delay_is_no_delay {W} (tx : TransactionClient W) (queueName : string)
    (msg : Task) (msgs : list Task) (delay : Delay) :
  truthy (delay_value delay) = false ->
  pgmq.send tx queueName msg delay = pgmq.send tx queueName msg DelayOmitted
  /\ pgmq.sendBatch tx queueName msgs delay = pgmq.sendBatch tx queueName msgs DelayOmitted
  /\ (forall DB (E : Engine DB) (w : World DB),
         trace (pgmq.send (engine_handle E) queueName msg delay w).2
         = trace w ++ [EvQueryRaw ["SELECT pgmq.send("; ", "; ""; ")"]
                                  [VString queueName; VObject msg; sql [""] []]]
         /\ trace (pgmq.sendBatch (engine_handle E) queueName msgs delay w).2
            = trace w ++ [EvQueryRaw ["SELECT pgmq.send_batch("; ", "; ""; ")"]
                                     [VString queueName; VArray (VObject <$> msgs);
                                      sql [""] []]])
  /\ (forall (s : Reference.Store) (t : list Event),
         is_Some (Reference.queues s !! queueName) ->
         (exists id,
             (pgmq.send (engine_handle Reference.engine) queueName msg delay (MkWorld s t)).1
             = Fulfilled (VNumber id))
         /\ Reference.enqueued_visible queueName msg s
              (db (pgmq.send (engine_handle Reference.engine) queueName msg delay
                             (MkWorld s t)).2)).
Proof.
  intros Hfalsy.
  split; [by rewrite !send_call, (falsy_delay_fragment _ Hfalsy)|].
  split; [by rewrite !sendBatch_call, (falsy_delay_fragment _ Hfalsy)|].
  split.
  - intros DB E w. rewrite send_call, sendBatch_call, (falsy_delay_fragment _ Hfalsy).
    split; apply await_trace.
    + intros [|row rows] w'; reflexivity.
    + reflexivity.
  - intros s t Hq.
    destruct (reference_send_no_delay queueName msg s Hq) as (id & s' & Hquery & Hvisible).
    rewrite !send_call, (falsy_delay_fragment _ Hfalsy).
    change (sql [""] []) with (VSql [""] []) in Hquery |- *.
    unfold await. simpl. rewrite Hquery. simpl. eauto.
Qed.

Lemma falsy_delay_is_no_delay_witness :
  truthy (delay_value (DelayNumber 0)) = false
  /\ pgmq.send (engine_handle Reference.engine) "q1" [("a", VNumber 2)] (DelayNumber 0)
     = pgmq.send (engine_handle Reference.engine) "q1" [("a", VNumber 2)] DelayOmitted
  /\ Reference.enqueued_visible "q1" [("a", VNumber 2)] Reference.sample
       (db (pgmq.send (engine_handle Reference.engine) "q1" [("a", VNumber 2)] (DelayNumber 0)
                      (MkWorld Reference.sample [])).2).
Proof.
  pose proof (falsy_delay_is_no_delay (engine_handle Reference.engine) "q1"
                [("a", VNumber 2)] [] (DelayNumber 0) eq_refl) as (Hsend & _ & _ & Hstored).
  split; [reflexivity|]. split; [exact Hsend|].
  apply (Hstored Reference.sample []). vm_compute. eauto.
Defined.

(** ** Deleting twice *)

Lemma removed_id_absent id (ms : list Reference.Message) :
  existsb (Reference.has_id id) (List.filter (fun m => negb (Reference.has_id id m)) ms)
  = false.
Proof.
  induction ms as [|m ms IH]; [reflexivity|]. simpl.
  destruct (Reference.has_id id m) eqn:Hm; simpl; [exact IH|].
  by rewrite Hm, IH.
Qed.

(** The reference engine meets the contract of [delete]. *)
Lemma reference_delete_contract :
  delete_contract Reference.engine
    (fun s queueName => is_Some (Reference.queues s !! queueName)) Reference.holds.
Proof.
  unfold delete_contract. intros s queueName id [q Hq]. simpl.
  unfold Reference.query. case_decide; [done|]. case_decide; [|done].
  unfold Reference.delete. rewrite Hq.
  eexists _, _. split; [reflexivity|]. simpl.
  unfold Reference.holds. simpl. rewrite Hq, !lookup_insert_eq. simpl.
  split; [reflexivity|]. split; [eauto|]. apply removed_id_absent.
Qed.

Section DeleteTwice.
Context {DB : Type} (E : Engine DB).
Variable queue_exists : DB -> string -> Prop.
Variable present : DB -> string -> Z -> bool.
Hypothesis delete_ok : delete_contract E queue_exists present.

(** One [deleteMessage] against such an engine: the answer is whether the
    message was there, and afterwards it is not. *)
Lemma deleteMessage_once queueName id (w : World DB) :
  queue_exists (db w) queueName ->
  (pgmq.deleteMessage (engine_handle E) queueName id w).1
  = Fulfilled (VBool (present (db w) queueName id))
  /\ queue_exists (db (pgmq.deleteMessage (engine_handle E) queueName id w).2) queueName
  /\ present (db (pgmq.deleteMessage (engine_handle E) queueName id w).2) queueName id
     = false.
Proof.
  intros Hq.
  destruct (delete_ok (db w) queueName id Hq) as (row & d' & Hcall & Hrow & Hq' & Hgone).
  unfold pgmq.deleteMessage, await. simpl. rewrite Hcall. simpl. by rewrite Hrow.
Qed.

(** C7: against an engine whose [delete] answers one row with a boolean,
    [deleteMessage] on a message that is not in the queue (never there, or
    removed before) is fulfilled with [false], not rejected; and on a
    message that is there, a first call is fulfilled with [true] and a
    second call right after it with [false]. *)
Theorem deleteMessage_true_then_false (queueName : string) (id : Z) (w : World DB) :
  queue_exists (db w) queueName ->
  (present (db w) queueName id = false ->
     (pgmq.deleteMessage (engine_handle E) queueName id w).1 = Fulfilled (VBool false))
  /\ (present (db w) queueName id = true ->
        (pgmq.deleteMessage (engine_handle E) queueName id w).1 = Fulfilled (VBool true)
        /\ (pgmq.deleteMessage (engine_handle E) queueName id
              (pgmq.deleteMessage (engine_handle E) queueName id w).2).1
           = Fulfilled (VBool false)).
Proof.
  intros Hq.
  destruct (deleteMessage_once queueName id w Hq) as (Hfirst & Hq' & Hgone).
  destruct (deleteMessage_once queueName id _ Hq') as (Hsecond & _ & _).
  rewrite Hgone in Hsecond. rewrite Hfirst.
  split; [by intros ->|]. intros ->. by split.
Qed.

End DeleteTwice.

(** Message 1 of the sample queue is deleted by the first call and missing
    at the second; message 999999 was never there. *)
Lemma deleteMessage_true_then_false_witness :
  is_Some (Reference.queues Reference.sample !! "q1")
  /\ (Reference.holds Reference.sample "q1" 1 = true
      /\ (pgmq.deleteMessage (engine_handle Reference.engine) "q1" 1
                             (MkWorld Reference.sample [])).1 = Fulfilled (VBool true)
      /\ (pgmq.deleteMessage (engine_handle Reference.engine) "q1" 1
            (pgmq.deleteMessage (engine_handle Reference.engine) "q1" 1
                                (MkWorld Reference.sample [])).2).1 = Fulfilled (VBool false))
  /\ (Reference.holds Reference.sample "q1" 999999 = false
      /\ (pgmq.deleteMessage (engine_handle Reference.engine) "q1" 999999
                             (MkWorld Reference.sample [])).1 = Fulfilled (VBool false)).
Proof.
  assert (Hq : is_Some (Reference.queues Reference.sample !! "q1")) by (vm_compute; eauto).
  split; [exact Hq|]. split.
  - split; [reflexivity|].
    exact (proj2 (deleteMessage_true_then_false Reference.engine _ Reference.holds
                    reference_delete_contract "q1" 1 (MkWorld Reference.sample []) Hq)
                 eq_refl).
  - split; [reflexivity|].
    exact (proj1 (deleteMessage_true_then_false Reference.engine _ Reference.holds
                    reference_delete_contract "q1" 999999 (MkWorld Reference.sample []) Hq)
                 eq_refl).
Defined.

Example deleteMessage_missing_id_is_false :
  (pgmq.deleteMessage (engine_handle Reference.engine) "q1" 999999
                      (MkWorld Reference.sample [])).1 = Fulfilled (VBool false).
Proof. reflexivity. Qed.

(** * Further properties of the code *)

(** ** Every function is its one raw call and a pure ending *)

Ltac unfold_operations :=
  unfold pgmq.send, pgmq.sendBatch, pgmq.read, pgmq.readWithPoll, pgmq.pop,
    pgmq.deleteMessage, pgmq.deleteBatch, pgmq.purgeQueue, pgmq.archive,
    pgmq.archiveBatch, pgmq.createQueue, pgmq.createPartitionedQueue,
    pgmq.createUnloggedQueue, pgmq.detachArchive, pgmq.dropQueue, pgmq.setVt,
    pgmq.listQueues, pgmq.metrics, pgmq.metricsAll.

(** Against an engine, the event a method call leaves is the call of the
    table. *)
Lemma operation_issues_its_call {DB A} (E : Engine DB) (o : Op A) (w : World DB) :
  trace (operation (engine_handle E) o w).2 = trace w ++ [call_event (call_of o)].
Proof.
  destruct o; simpl; unfold_operations; unfold await, call_event; simpl;
    repeat match goal with
           | |- context [engine_query E ?s ?v ?d] =>
               destruct (engine_query E s v d) as [[rows|e] d']
           | |- context [engine_execute E ?s ?v ?d] =>
               destruct (engine_execute E s v d) as [[n|e] d']
           end;
    try (destruct rows as [|firstResult rest]); reflexivity.
Qed.

(** X1: a method call of the Operation Layer is rejected in two cases only:
    its raw call is rejected, and then with the very same value; or the
    function is one of the seven that read [result[0]], the call answered no
    row, and the value is the plain [Error] naming the primitive.  In both
    the world is as the raw call left it. *)
Theorem operation_rejected_iff {W A} (tx : TransactionClient W) (o : Op A) (w : W)
    (e : JsError) (w' : W) :
  operation tx o w = (Rejected e, w')
  <-> (issue tx (call_of o) w = (Rejected e, w')
       \/ (single_row o = true
           /\ issue tx (call_of o) w = (Fulfilled (inl []), w')
           /\ e = Error ("No result returned from pgmq." +:+ primitive o))).
Proof.
  destruct o; simpl; unfold_operations; unfold issue, await, resolve, throw, delay_fragment;
    simpl;
    repeat match goal with
           | |- context [queryRaw tx ?s ?v w] =>
               destruct (queryRaw tx s v w) as [[[|firstResult rest]|e0] w0]
           | |- context [executeRaw tx ?s ?v w] =>
               destruct (executeRaw tx s v w) as [[n|e0] w0]
           end;
    simpl; (split; [intros H | intros [H | (Hs & H & He)]]); simplify_eq;
    first [done | by left | by right].
Qed.

Lemma operation_rejected_iff_witness :
  operation (stub (Fulfilled [])) (OpMetrics "q") tt
  = (Rejected (Error "No result returned from pgmq.metrics"), tt)
  /\ operation (stub (Rejected (Reference.EngineError "queue does not exist")))
               (OpDeleteBatch "q" [1%Z; 2%Z]) tt
     = (Rejected (Reference.EngineError "queue does not exist"), tt).
Proof.
  split.
  - apply (proj2 (operation_rejected_iff (stub (Fulfilled [])) (OpMetrics "q") tt _ tt)).
    right. done.
  - apply (proj2 (operation_rejected_iff
                    (stub (Rejected (Reference.EngineError "queue does not exist")))
                    (OpDeleteBatch "q" [1%Z; 2%Z]) tt _ tt)).
    left. reflexivity.
Defined.

(** The world after a method call is the world after its raw call. *)
Lemma operation_world {W A} (tx : TransactionClient W) (o : Op A) (w : W) :
  (operation tx o w).2 = (issue tx (call_of o) w).2.
Proof.
  destruct o; simpl; unfold_operations; unfold issue, await, resolve, throw, delay_fragment;
    simpl;
    repeat match goal with
           | |- context [queryRaw tx ?s ?v w] =>
               destruct (queryRaw tx s v w) as [[[|firstResult rest]|e0] w0]
           | |- context [executeRaw tx ?s ?v w] =>
               destruct (executeRaw tx s v w) as [[n|e0] w0]
           end;
    reflexivity.
Qed.

(** ** The text of a call names the function *)

Lemma last_call_text_snoc t c :
  last_call_text (t ++ [call_event c]) = Some (raw_strings c).
Proof. unfold last_call_text. rewrite last_snoc. by destruct c as [[] ? ?]. Qed.

Lemma call_text_names_function {A B} (o1 : Op A) (o2 : Op B) :
  raw_strings (call_of o1) = raw_strings (call_of o2) -> op_name o1 = op_name o2.
Proof. destruct o1, o2; simpl; intros H; first [reflexivity | discriminate H]. Qed.

(** X2: the literal text of the raw call tells which function of the
    Operation Layer made it: two method calls whose raw calls have the same
    template chunks are calls of the same function, whatever their
    arguments, the engine and the state.  In particular the single and the
    batch forms of [delete] and [archive], which name the same primitive,
    differ in their cast. *)
Theorem call_text_identifies_function {DB1 DB2 A B} (E1 : Engine DB1) (E2 : Engine DB2)
    (o1 : Op A) (o2 : Op B) (w1 : World DB1) (w2 : World DB2) :
  last_call_text (trace (operation (engine_handle E1) o1 w1).2)
  = last_call_text (trace (operation (engine_handle E2) o2 w2).2) ->
  op_name o1 = op_name o2.
Proof.
  rewrite !operation_issues_its_call, !last_call_text_snoc.
  intros [= H]. by apply call_text_names_function.
Qed.

Lemma call_text_identifies_function_witness :
  op_name (OpDeleteMessage "q1" 1) = op_name (OpDeleteMessage "other" 7).
Proof.
  apply (call_text_identifies_function Reference.engine Reference.engine
           (OpDeleteMessage "q1" 1) (OpDeleteMessage "other" 7)
           (MkWorld Reference.sample []) (MkWorld Reference.sample [EvBegin])).
  reflexivity.
Defined.

Example delete_single_and_batch_texts_differ :
  last_call_text (trace (pgmq.deleteMessage (engine_handle Reference.engine) "q1" 1
                                            (MkWorld Reference.sample [])).2)
  <> last_call_text (trace (pgmq.deleteBatch (engine_handle Reference.engine) "q1" [1%Z]
                                             (MkWorld Reference.sample [])).2).
Proof. discriminate. Qed.

(** ** Which raw method a function uses *)

(** X3: a function of the Operation Layer reaches the engine through one
    raw method only.  The four queue-management functions [createQueue],
    [createPartitionedQueue], [createUnloggedQueue] and [detachArchive] use
    [$executeRaw] and never [$queryRaw]; the other fifteen use [$queryRaw]
    and never [$executeRaw]: two handles that agree on the method a function
    uses give the same promise. *)
Theorem operation_uses_one_raw_method {W A} (tx1 tx2 : TransactionClient W) (o : Op A) :
  (raw_method (call_of o) = ViaExecuteRaw
   <-> op_name o ∈ ["createQueue"; "createPartitionedQueue"; "createUnloggedQueue";
                    "detachArchive"])
  /\ (match raw_method (call_of o) with
      | ViaQueryRaw => queryRaw tx1 = queryRaw tx2
      | ViaExecuteRaw => executeRaw tx1 = executeRaw tx2
      end ->
      operation tx1 o = operation tx2 o).
Proof.
  split.
  - destruct o; simpl; split; intros H; try discriminate; try reflexivity;
      try (repeat constructor);
      repeat (apply elem_of_cons in H as [H|H]; [discriminate H|]);
      by apply elem_of_nil in H.
  - destruct o; simpl; intros H; unfold_operations; by rewrite H.
Qed.

Lemma operation_uses_one_raw_method_witness :
  operation (as_any (client_object (raw_only_client Reference.engine)))
            (OpSend "q1" [] DelayOmitted)
  = operation
      {| queryRaw := queryRaw (engine_handle Reference.engine);
         executeRaw := fun _ _ => throw (Error "not available") |}
      (OpSend "q1" [] DelayOmitted)
  /\ operation (engine_handle Reference.engine) (OpCreateQueue "q3")
     = operation
         {| queryRaw := fun _ _ => throw (Error "not available");
            executeRaw := executeRaw (engine_handle Reference.engine) |}
         (OpCreateQueue "q3").
Proof.
  split.
  - apply (proj2 (operation_uses_one_raw_method _ _ (OpSend "q1" [] DelayOmitted))).
    reflexivity.
  - apply (proj2 (operation_uses_one_raw_method _ _ (OpCreateQueue "q3"))).
    reflexivity.
Defined.

(** ** How a delay is written into the call *)





Example sql_splices_nested_fragment :
  sql [", "; ""] [sql [""; "::integer"] [VNumber 30]] = VSql [", "; "::integer"] [VNumber 30]
  /\ sql ["a"; "b"; "c"] [VSql ["x"; "y"; "z"] [VNumber 1; VNumber 2]; VNumber 3]
     = VSql ["ax"; "y"; "zb"; "c"] [VNumber 1; VNumber 2; VNumber 3].
Proof. split; reflexivity. Qed.


(** ** A row without the expected column *)

Lemma prop_missing name (row : Row) : name ∉ row.*1 -> prop name row = VUndefined.
Proof.
  induction row as [|[k v] row IH]; [reflexivity|]. simpl.
  intros H. apply not_elem_of_cons in H as [Hk Hrow].
  case_decide; [congruence|]. by apply IH.
Qed.

(** X5: the guard of the single-row functions looks at the row, not at its
    column: when the first row has no property of the expected name,
    [send], [deleteMessage], [purgeQueue], [archive] and [dropQueue] are
    fulfilled with [undefined] and raise nothing. *)
Theorem missing_column_is_undefined {W} (tx : TransactionClient W) (queueName : string)
    (msg : Task) (delay : Delay) (msgId : Z) (w : W) :
  (forall row rest w',
     queryRaw tx ["SELECT pgmq.send("; ", "; ""; ")"]
                 [VString queueName; VObject msg; delay_fragment delay] w
     = (Fulfilled (row :: rest), w') ->
     "send" ∉ row.*1 ->
     pgmq.send tx queueName msg delay w = (Fulfilled VUndefined, w'))
  /\ (forall row rest w',
        queryRaw tx ["SELECT pgmq.delete("; ", "; "::integer)"]
                    [VString queueName; VNumber msgId] w
        = (Fulfilled (row :: rest), w') ->
        "delete" ∉ row.*1 ->
        pgmq.deleteMessage tx queueName msgId w = (Fulfilled VUndefined, w'))
  /\ (forall row rest w',
        queryRaw tx ["SELECT pgmq.purge_queue("; ")"] [VString queueName] w
        = (Fulfilled (row :: rest), w') ->
        "purge_queue" ∉ row.*1 ->
        pgmq.purgeQueue tx queueName w = (Fulfilled VUndefined, w'))
  /\ (forall row rest w',
        queryRaw tx ["SELECT pgmq.archive("; ", "; "::integer)"]
                    [VString queueName; VNumber msgId] w
        = (Fulfilled (row :: rest), w') ->
        "archive" ∉ row.*1 ->
        pgmq.archive tx queueName msgId w = (Fulfilled VUndefined, w'))
  /\ (forall row rest w',
        queryRaw tx ["SELECT pgmq.drop_queue("; ")"] [VString queueName] w
        = (Fulfilled (row :: rest), w') ->
        "drop_queue" ∉ row.*1 ->
        pgmq.dropQueue tx queueName w = (Fulfilled VUndefined, w')).
Proof.
  repeat split; intros row rest w' Hcall Hmissing.
  - rewrite send_call, (await_fulfilled _ _ _ _ _ Hcall). simpl.
    unfold resolve. by rewrite prop_missing.
  - unfold pgmq.deleteMessage. rewrite (await_fulfilled _ _ _ _ _ Hcall). simpl.
    unfold resolve. by rewrite prop_missing.
  - unfold pgmq.purgeQueue. rewrite (await_fulfilled _ _ _ _ _ Hcall). simpl.
    unfold resolve. by rewrite prop_missing.
  - unfold pgmq.archive. rewrite (await_fulfilled _ _ _ _ _ Hcall). simpl.
    unfold resolve. by rewrite prop_missing.
  - unfold pgmq.dropQueue. rewrite (await_fulfilled _ _ _ _ _ Hcall). simpl.
    unfold resolve. by rewrite prop_missing.
Qed.

Lemma missing_column_is_undefined_witness :
  pgmq.send (stub (Fulfilled [[("send_batch", VNumber 1)]])) "q" [] DelayOmitted tt
  = (Fulfilled VUndefined, tt).
Proof.
  apply (proj1 (missing_column_is_undefined (stub (Fulfilled [[("send_batch", VNumber 1)]]))
                  "q" [] DelayOmitted 0 tt) [("send_batch", VNumber 1)] [] tt).
  - reflexivity.
  - simpl. intros H. apply list_elem_of_singleton in H. discriminate H.
Defined.

(** ** Defaults *)

(** X6: leaving an optional argument out is the same as writing the default
    of the signature, in every layer: 1 for [qty], 5 for [maxPollSeconds],
    100 for [pollIntervalMs], the empty object for [conditional], and
    ['10000'] and ['100000'] for the two intervals of
    [createPartitionedQueue]. *)
Theorem omitted_argument_is_default {W A} (tx : TransactionClient W) (prisma : PrismaClient W)
    (receiver : JsObject W) (o : Op A) :
  call_of (with_defaults o) = call_of o
  /\ operation tx (with_defaults o) = operation tx o
  /\ facade_method (PGMQTransactionClient.new tx) (with_defaults o)
     = facade_method (PGMQTransactionClient.new tx) o
  /\ client_method (PrismaPGMQ.new prisma) (with_defaults o)
     = client_method (PrismaPGMQ.new prisma) o
  /\ extension_method receiver (with_defaults o) = extension_method receiver o
  /\ scoped_extension_method prisma (with_defaults o) = scoped_extension_method prisma o.
Proof. by destruct o. Qed.

Example read_defaults :
  call_of (OpRead "q1" 30 None None)
  = MkRawCall ViaQueryRaw
      ["SELECT * FROM pgmq.read("; ", "; "::integer, "; "::integer, "; ")"]
      [VString "q1"; VNumber 30; VNumber 1; VObject []].
Proof. reflexivity. Qed.

(** ** What each entry point touches on the client *)

(** X7: the Convenience Client reaches the database through [$transaction]
    only: its methods and [transaction] never call [$queryRaw] or
    [$executeRaw] on the Prisma client itself, so two clients with the same
    [$transaction] give the same promises. *)
Theorem convenience_client_uses_transaction_only {W} (p1 p2 : PrismaClient W) :
  (forall A (block : TransactionClient W -> Promise W A),
     prisma_transaction p1 block = prisma_transaction p2 block) ->
  (forall A (o : Op A),
     client_method (PrismaPGMQ.new p1) o = client_method (PrismaPGMQ.new p2) o)
  /\ (forall A (callback : PGMQTransactionClient.t W -> Promise W A),
        PrismaPGMQ.transaction (PrismaPGMQ.new p1) callback
        = PrismaPGMQ.transaction (PrismaPGMQ.new p2) callback).
Proof.
  intros Hsame. split.
  - intros A o. rewrite !client_method_scoped_operation. apply Hsame.
  - intros A callback. unfold PrismaPGMQ.transaction. simpl. apply Hsame.
Qed.

Lemma convenience_client_uses_transaction_only_witness :
  client_method (PrismaPGMQ.new (engine_client Reference.engine)) (OpPop "q1")
  = client_method (PrismaPGMQ.new (scope_only_client Reference.engine)) (OpPop "q1").
Proof.
  apply (convenience_client_uses_transaction_only (engine_client Reference.engine)
           (scope_only_client Reference.engine)).
  reflexivity.
Defined.

(** X8: each method of the [$pgmq] namespace passes its receiver on as the
    handle of the Operation Layer function of the same name.  Called as
    [prisma.$pgmq.op(...)], with the [$pgmq] object as receiver, it is
    rejected with the [TypeError] of the missing raw method its function
    uses, and the world is as before: nothing reaches the engine.  With a
    Prisma client as receiver it is the Operation Layer function on that
    client's own raw methods. *)
Theorem extension_method_follows_receiver {W A} (o : Op A) :
  (forall receiver : JsObject W, extension_method receiver o = operation (as_any receiver) o)
  /\ (forall w : W,
        extension_method namespace_object o w
        = (Rejected (TypeError ("tx." +:+ method_name (raw_method (call_of o))
                                +:+ " is not a function")), w))
  /\ (forall prisma : PrismaClient W,
        extension_method (client_object prisma) o
        = operation {| queryRaw := prisma_queryRaw prisma;
                       executeRaw := prisma_executeRaw prisma |} o).
Proof.
  split; [intros; apply extension_method_operation|].
  split; [intros w; by destruct o | intros prisma; by destruct o].
Qed.

Example extension_createQueue_on_namespace :
  pgmqExtension.createQueue (W := unit) namespace_object "my-new-queue" tt
  = (Rejected (TypeError "tx.$executeRaw is not a function"), tt).
Proof. reflexivity. Qed.

(** ** Blocks of calls and scopes *)

Lemma facade_block_operation_block {W} (tx : TransactionClient W) (calls : list AnyOp) w :
  facade_block (PGMQTransactionClient.new tx) calls w = operation_block tx calls w.
Proof.
  revert w. induction calls as [|[A o] rest IH]; intros w; [reflexivity|]. simpl.
  rewrite facade_method_operation. unfold await.
  by destruct (operation tx o w) as [[a|e] w1].
Qed.

Lemma txPgmq_method_operation {W A} (tx : TransactionClient W) (o : Op A) :
  txPgmq_method (pgmqScopedExtension.txPgmq tx) o = operation tx o.
Proof. by destruct o. Qed.

Lemma txPgmq_block_operation_block {W} (tx : TransactionClient W) (calls : list AnyOp) w :
  txPgmq_block (pgmqScopedExtension.txPgmq tx) calls w = operation_block tx calls w.
Proof.
  revert w. induction calls as [|[A o] rest IH]; intros w; [reflexivity|]. simpl.
  rewrite txPgmq_method_operation. unfold await.
  by destruct (operation tx o w) as [[a|e] w1].
Qed.

Lemma client_block_scoped_block {W} (prisma : PrismaClient W) (calls : list AnyOp) w :
  client_block (PrismaPGMQ.new prisma) calls w = scoped_block prisma calls w.
Proof.
  revert w. induction calls as [|[A o] rest IH]; intros w; [reflexivity|]. simpl.
  rewrite client_method_scoped_operation. unfold await.
  by destruct (prisma_transaction prisma (fun tx => operation tx o) w) as [[a|e] w1].
Qed.

(** ** The extension that scopes every call *)

(** X11: every method of the scoping extension's [pgmq] namespace is the
    method of the same name of the Convenience Client on the same Prisma
    client: one [$transaction] whose block is the Operation Layer function on
    the scope's handle, with the same arguments and defaults. *)
Theorem scoped_extension_is_convenience_client {W A} (client : PrismaClient W) (o : Op A) :
  scoped_extension_method client o = client_method (PrismaPGMQ.new client) o
  /\ scoped_extension_method client o = prisma_transaction client (fun tx => operation tx o).
Proof. by destruct o. Qed.

(** X12: the closures of [txPgmq] are the Operation Layer functions on the
    scope's handle, as the methods of the Bound Client Facade are; and
    against an engine, a block of calls run by the extension's [transaction]
    on [txPgmq] is the same promise as the block run by
    [PrismaPGMQ.transaction] on the facade. *)
Theorem txPgmq_is_the_facade :
  (forall W A (tx : TransactionClient W) (o : Op A),
      txPgmq_method (pgmqScopedExtension.txPgmq tx) o = operation tx o
      /\ txPgmq_method (pgmqScopedExtension.txPgmq tx) o
         = facade_method (PGMQTransactionClient.new tx) o)
  /\ (forall DB (E : Engine DB) (calls : list AnyOp) (w : World DB),
         pgmqScopedExtension.transaction (engine_client E)
           (fun pgmq => txPgmq_block pgmq calls) w
         = PrismaPGMQ.transaction (PrismaPGMQ.new (engine_client E))
             (fun pgmq => facade_block pgmq calls) w).
Proof.
  split.
  - intros W A tx o. by destruct o.
  - intros DB E calls w.
    unfold pgmqScopedExtension.transaction, PrismaPGMQ.transaction. simpl.
    unfold run_transaction.
    by rewrite txPgmq_block_operation_block, facade_block_operation_block.
Qed.

(** ** The query capture *)

Lemma getLastQuery_snoc (this : QueryCapture.t) (c : QueryCapture.Captured) :
  QueryCapture.getLastQuery (this ++ [c]) = Some c.
Proof.
  unfold QueryCapture.getLastQuery. rewrite length_app. simpl.
  replace (Z.of_nat (length this + 1) - 1)%Z with (Z.of_nat (length this)) by lia.
  destruct (Z.ltb_spec (Z.of_nat (length this)) 0); [lia|].
  rewrite Nat2Z.id. by apply list_lookup_middle.
Qed.

(** X13: the query capture keeps the calls in the order they came:
    [capture] puts the call at the end of what [getQueries] lists and
    [getLastQuery] then returns that call; on a capture that holds nothing,
    new or cleared, [getLastQuery] returns [undefined]; and [capture]
    answers the empty array for [$queryRaw], 0 for [$executeRaw] and
    [undefined] for any other method name. *)
Theorem capture_then_getLastQuery (method : string) (query : list string)
    (params : list Value) (this : QueryCapture.t) :
  let captured := {| QueryCapture.method := method; QueryCapture.query := query;
                     QueryCapture.params := params |} in
  QueryCapture.getQueries (QueryCapture.capture method query params this).2
  = QueryCapture.getQueries this ++ [captured]
  /\ QueryCapture.getLastQuery (QueryCapture.capture method query params this).2
     = Some captured
  /\ QueryCapture.getLastQuery (QueryCapture.clear this) = None
  /\ QueryCapture.getLastQuery [] = None
  /\ (QueryCapture.capture method query params this).1
     = (if decide (method = "$queryRaw") then QueryCapture.Rows []
        else if decide (method = "$executeRaw") then QueryCapture.Count 0
        else QueryCapture.Undefined).
Proof.
  intros captured. split; [reflexivity|]. split; [apply getLastQuery_snoc|].
  repeat split.
Qed.

Lemma mockTx_records {A} (o : Op A) (this : QueryCapture.t) :
  (operation mockTx o this).2
  = this ++ [{| QueryCapture.method := method_name (raw_method (call_of o));
                QueryCapture.query := raw_strings (call_of o);
                QueryCapture.params := raw_values (call_of o) |}].
Proof. rewrite operation_world. by destruct o. Qed.

(** X14: on the transaction client of the capture set-up, before a test
    stubs an answer, every function of the Operation Layer is captured once,
    under the name of the raw method it uses, with its template and values;
    the seven single-row functions are then rejected with the no-result
    error of their primitive, and the other twelve are fulfilled. *)
Theorem operations_on_capture {A} (o : Op A) (this : QueryCapture.t) :
  QueryCapture.getLastQuery (operation mockTx o this).2
  = Some {| QueryCapture.method := method_name (raw_method (call_of o));
            QueryCapture.query := raw_strings (call_of o);
            QueryCapture.params := raw_values (call_of o) |}
  /\ length (QueryCapture.getQueries (operation mockTx o this).2)
     = S (length (QueryCapture.getQueries this))
  /\ (if single_row o
      then (operation mockTx o this).1
           = Rejected (Error ("No result returned from pgmq." +:+ primitive o))
      else exists a, (operation mockTx o this).1 = Fulfilled a).
Proof.
  rewrite mockTx_records. split; [apply getLastQuery_snoc|].
  split; [unfold QueryCapture.getQueries; rewrite length_app; simpl; lia|].
  destruct o; simpl; eauto.
Qed.

Example capture_of_send_with_delay :
  QueryCapture.getLastQuery (pgmq.send mockTx "test-queue" [("id", VNumber 1)]
                                       (DelayNumber 5) []).2
  = Some {| QueryCapture.method := "$queryRaw";
            QueryCapture.query := ["SELECT pgmq.send("; ", "; ""; ")"];
            QueryCapture.params := [VString "test-queue"; VObject [("id", VNumber 1)];
                                    VSql [", "; "::integer"] [VNumber 5]] |}.
Proof. reflexivity. Qed.

(** ** Blocks of calls on the capture set-up *)

Lemma operation_block_captures (calls : list AnyOp) (this : QueryCapture.t) :
  (length this <= length (operation_block mockTx calls this).2
   <= length this + length calls)%nat
  /\ ((operation_block mockTx calls this).1 = Fulfilled tt ->
      length (operation_block mockTx calls this).2 = (length this + length calls)%nat).
Proof.
  revert this. induction calls as [|[A o] rest IH]; intros this.
  - simpl. split; [lia | intros _; lia].
  - simpl. unfold await.
    pose proof (mockTx_records o this) as Hrecord.
    destruct (operation mockTx o this) as [[a|e] this1]; simpl in *; subst this1.
    + destruct (IH (this ++ [{| QueryCapture.method := method_name (raw_method (call_of o));
                               QueryCapture.query := raw_strings (call_of o);
                               QueryCapture.params := raw_values (call_of o) |}]))
        as [Hbound Hfull].
      rewrite length_app in Hbound, Hfull. simpl in Hbound, Hfull.
      split; [lia | intros Hf; rewrite (Hfull Hf); lia].
    + rewrite length_app. simpl. split; [lia | discriminate].
Qed.

(** X9: [PrismaPGMQ.transaction] with a block of any number of facade calls
    is, for every Prisma client, one [$transaction] whose block, on whatever
    handle it is given, is the Operation Layer calls on that handle in order,
    stopping at the first that is rejected.  On the capture set-up, whose
    [$transaction] runs the block on [mockTx], the capture grows by one
    query per call made: at most one per call, and exactly one per call
    when the block is fulfilled. *)
Theorem transaction_block_on_one_handle :
  (forall W (prisma : PrismaClient W) (calls : list AnyOp),
      PrismaPGMQ.transaction (PrismaPGMQ.new prisma) (fun pgmq => facade_block pgmq calls)
      = prisma_transaction prisma
          (fun tx => facade_block (PGMQTransactionClient.new tx) calls))
  /\ (forall W (tx : TransactionClient W) (calls : list AnyOp) (w : W),
         facade_block (PGMQTransactionClient.new tx) calls w = operation_block tx calls w)
  /\ (forall rawQuery rawExecute (calls : list AnyOp) (this : QueryCapture.t),
         PrismaPGMQ.transaction (PrismaPGMQ.new (mockPrisma rawQuery rawExecute))
           (fun pgmq => facade_block pgmq calls) this
         = operation_block mockTx calls this
         /\ (length (QueryCapture.getQueries this)
             <= length (QueryCapture.getQueries
                          (PrismaPGMQ.transaction
                             (PrismaPGMQ.new (mockPrisma rawQuery rawExecute))
                             (fun pgmq => facade_block pgmq calls) this).2)
             <= length (QueryCapture.getQueries this) + length calls)%nat
         /\ ((PrismaPGMQ.transaction (PrismaPGMQ.new (mockPrisma rawQuery rawExecute))
                (fun pgmq => facade_block pgmq calls) this).1 = Fulfilled tt ->
             length (QueryCapture.getQueries
                       (PrismaPGMQ.transaction
                          (PrismaPGMQ.new (mockPrisma rawQuery rawExecute))
                          (fun pgmq => facade_block pgmq calls) this).2)
             = (length (QueryCapture.getQueries this) + length calls)%nat)).
Proof.
  split; [reflexivity|]. split; [intros; apply facade_block_operation_block|].
  intros rawQuery rawExecute calls this.
  assert (Hrun : PrismaPGMQ.transaction (PrismaPGMQ.new (mockPrisma rawQuery rawExecute))
                   (fun pgmq => facade_block pgmq calls) this
                 = operation_block mockTx calls this)
    by apply facade_block_operation_block.
  rewrite Hrun. split; [reflexivity|]. apply operation_block_captures.
Qed.

Lemma transaction_block_on_one_handle_witness :
  length (QueryCapture.getQueries
            (PrismaPGMQ.transaction
               (PrismaPGMQ.new (mockPrisma (fun _ _ => resolve []) (fun _ _ => resolve 0%Z)))
               (fun pgmq =>
                  facade_block pgmq
                    [existT _ (OpCreateQueue "q1");
                     existT _ (OpSendBatch "q1" [[("n", VNumber 1)]] DelayOmitted)])
               []).2)
  = 2%nat.
Proof.
  apply (proj2 (proj2 (proj2 (proj2 transaction_block_on_one_handle)
                         (fun _ _ => resolve []) (fun _ _ => resolve 0%Z)
                         [existT _ (OpCreateQueue "q1");
                          existT _ (OpSendBatch "q1" [[("n", VNumber 1)]] DelayOmitted)]
                         []))).
  reflexivity.
Defined.

(** X10: the same calls awaited one after the other on the Convenience
    Client are, for every Prisma client, one [$transaction] per call made,
    each around the Operation Layer function of the call.  On the capture
    set-up, whose [$transaction] runs the block on [mockTx] and has no unit
    of work, they give the same outcome and leave the same capture as the
    block run by one [transaction]. *)
Theorem client_block_transaction_per_call :
  (forall W (prisma : PrismaClient W) (calls : list AnyOp) (w : W),
      client_block (PrismaPGMQ.new prisma) calls w = scoped_block prisma calls w)
  /\ (forall rawQuery rawExecute (calls : list AnyOp) (this : QueryCapture.t),
         client_block (PrismaPGMQ.new (mockPrisma rawQuery rawExecute)) calls this
         = PrismaPGMQ.transaction (PrismaPGMQ.new (mockPrisma rawQuery rawExecute))
             (fun pgmq => facade_block pgmq calls) this).
Proof.
  split; [intros; apply client_block_scoped_block|].
  intros rawQuery rawExecute calls this.
  rewrite client_block_scoped_block.
  transitivity (operation_block mockTx calls this);
    [|symmetry; apply facade_block_operation_block].
  revert this. induction calls as [|[A o] rest IH]; intros this; [reflexivity|].
  simpl. unfold await, mock_transaction.
  by destruct (operation mockTx o this) as [[a|e] this1].
Qed.
